(** * Teacher-AI: the AI generation pipeline of [app.py]

    A shallow embedding of [OllamaClient] and of the three service
    functions built on it ([generate_chat_response],
    [generate_quiz_questions], [generate_pdf_content]), together with the
    part of [send_message] that prepares the chat context.

    Python values are JSON-shaped ([json]); a Python [dict] is an
    association list in insertion order; the HTTP session is a scripted
    server queried through a small state-and-exception monad whose state
    is the list of requests sent so far. *)

From Stdlib Require Import String Ascii List ZArith Lia Bool Arith Sorted.
From Stdlib Require Import Permutation.
From Stdlib Require Import DecimalString.
Import ListNotations.
Set Warnings "-register-all".
Local Open Scope list_scope.
Local Open Scope string_scope.

(** ** Characters and text *)

Definition nl : string := String "010"%char EmptyString.
Definition dq : string := String "034"%char EmptyString.
Definition lbracket : ascii := "091"%char.
Definition rbracket : ascii := "093"%char.

(** [str(n)] and the rendering of an [int] inside an f-string. *)
Definition str_of_Z (z : Z) : string := NilZero.string_of_int (Z.to_int z).

(** [sep.join(parts)] *)
Fixpoint join (sep : string) (parts : list string) : string :=
  match parts with
  | [] => EmptyString
  | [p] => p
  | p :: rest => p ++ sep ++ join sep rest
  end.

(** ** Python values *)

Inductive json : Type :=
| JNull
| JBool (b : bool)
| JInt (z : Z)
| JFloat (literal : string)
| JStr (s : string)
| JArr (items : list json)
| JObj (members : list (string * json)).

(** A [dict] keeps its keys in insertion order; assigning to a key that is
    already present replaces the value and keeps the key's position. *)
Section Dict.
Context {V : Type}.

Definition dict := list (string * V).

Fixpoint dict_lookup (k : string) (d : dict) : option V :=
  match d with
  | [] => None
  | (k', v) :: rest => if String.eqb k k' then Some v else dict_lookup k rest
  end.

Fixpoint dict_set (k : string) (v : V) (d : dict) : dict :=
  match d with
  | [] => [(k, v)]
  | (k', v') :: rest =>
      if String.eqb k k' then (k', v) :: rest else (k', v') :: dict_set k v rest
  end.

(** [d.get(k, default)] *)
Definition dict_get (k : string) (default : V) (d : dict) : V :=
  match dict_lookup k d with
  | Some v => v
  | None => default
  end.

Definition dict_keys (d : dict) : list string := map fst d.
End Dict.
Arguments dict : clear implicits.

(** The name [type(v).__name__] that Python prints in an error message. *)
Definition py_type_name (v : json) : string :=
  match v with
  | JNull => "NoneType"
  | JBool _ => "bool"
  | JInt _ => "int"
  | JFloat _ => "float"
  | JStr _ => "str"
  | JArr _ => "list"
  | JObj _ => "dict"
  end.

(** ** Exceptions, results and the request monad *)

Inductive exn_class : Type :=
| RequestsTimeout        (* requests.exceptions.Timeout and its subclasses *)
| RequestsError          (* any other requests.exceptions.RequestException *)
| JSONDecodeError
| AttributeError
| TypeError
| OtherException.

Record exn : Type := mk_exn { exn_kind : exn_class; exn_msg : string }.

(** [isinstance(e, requests.exceptions.Timeout)] *)
Definition is_timeout (e : exn) : bool :=
  match exn_kind e with
  | RequestsTimeout => true
  | _ => false
  end.

Inductive result (A : Type) : Type :=
| Ok (a : A)
| Raise (e : exn).
Arguments Ok {A} a.
Arguments Raise {A} e.

Inductive http_method : Type := GET | POST.

Record request : Type := mk_request {
  req_method : http_method;
  req_url : string;
  req_json : option json;
  req_timeout : option Z
}.

Record response : Type := mk_response {
  status_code : Z;
  text : string
}.

Inductive http_outcome : Type :=
| Responded (r : response)
| Failed (e : exn).

(** The state threaded through every call: the requests sent so far. *)
Definition trace := list request.

Definition M (A : Type) : Type := trace -> result A * trace.

Definition ret {A} (a : A) : M A := fun tr => (Ok a, tr).

Definition raise {A} (e : exn) : M A := fun tr => (Raise e, tr).

Definition bind {A B} (c : M A) (k : A -> M B) : M B :=
  fun tr =>
    match c tr with
    | (Ok a, tr') => k a tr'
    | (Raise e, tr') => (Raise e, tr')
    end.

(** [try: c  except ... as e: h e] *)
Definition try_except {A} (c : M A) (h : exn -> M A) : M A :=
  fun tr =>
    match c tr with
    | (Ok a, tr') => (Ok a, tr')
    | (Raise e, tr') => h e tr'
    end.

Declare Scope py_scope.
Delimit Scope py_scope with py.
Notation "x <- c ;; k" := (bind c (fun x => k))
  (at level 61, c at next level, right associativity) : py_scope.
Local Open Scope py_scope.

Definition is_post (r : request) : bool :=
  match req_method r with
  | POST => true
  | GET => false
  end.

(** The requests of a trace that ask for a generation. *)
Definition generation_calls (tr : trace) : list request := filter is_post tr.

(** The interface the service functions use of the global [ollama_client]. *)
Record Client : Type := mk_client {
  is_available : M bool;
  generate_response : string -> string -> option string -> M json
}.

(** ** Configuration *)

Definition OLLAMA_BASE_URL : string := "http://localhost:11434".
Definition DEFAULT_MODEL : string := "llama3.2".

(** ** OllamaClient *)

Module OllamaClient.
Section Methods.
(** [json.loads], of the Python standard library; [response.json()]
    decodes the body with it. *)
Variable json_loads : string -> result json.
(** What the network answers to a request, given the requests before it. *)
Variable server : trace -> request -> http_outcome.
(** [self.base_url] *)
Variable base_url : string.

Definition send (r : request) : M response :=
  fun tr =>
    (match server tr r with
     | Responded resp => Ok resp
     | Failed e => Raise e
     end, (tr ++ [r])%list).

(** [self.session.get(url, timeout=t)] *)
Definition session_get (url : string) (timeout : option Z) : M response :=
  send (mk_request GET url None timeout).

(** [self.session.post(url, json=payload, timeout=t)] *)
Definition session_post (url : string) (payload : json) (timeout : option Z)
  : M response :=
  send (mk_request POST url (Some payload) timeout).

(** [response.json()] *)
Definition response_json (r : response) : M json :=
  fun tr => (json_loads (text r), tr).

(** [v.get(k, default)] on an arbitrary value: only a dict has [get]. *)
Definition py_get (v : json) (k : string) (default : json) : M json :=
  match v with
  | JObj d => ret (dict_get k default d)
  | _ => raise (mk_exn AttributeError
                  ("'" ++ py_type_name v ++ "' object has no attribute 'get'"))
  end.

Definition is_available : M bool :=
  try_except
    (response <- session_get (base_url ++ "/api/tags") (Some 5%Z) ;;
     ret (status_code response =? 200)%Z)
    (fun _ => ret false).

Definition list_models : M json :=
  bind
    (try_except
       (response <- session_get (base_url ++ "/api/tags") None ;;
        if (status_code response =? 200)%Z
        then body <- response_json response ;;
             models <- py_get body "models" (JArr []) ;;
             ret (Some models)
        else ret None)
       (fun _ => ret None))
    (fun r => match r with
              | Some models => ret models
              | None => ret (JArr [])
              end).

(** [if system_prompt: payload[...] = system_prompt]; the test holds for a
    non-empty string only. *)
Definition payload (prompt model : string) (system_prompt : option string)
  : dict json :=
  let payload := [("model", JStr model);
                  ("prompt", JStr prompt);
                  ("stream", JBool false)] in
  match system_prompt with
  | Some (String c s) => dict_set "system" (JStr (String c s)) payload
  | _ => payload
  end.

Definition generate_request (prompt model : string)
    (system_prompt : option string) : request :=
  mk_request POST (base_url ++ "/api/generate")
    (Some (JObj (payload prompt model system_prompt))) (Some 60%Z).

Definition generate_response (prompt model : string)
    (system_prompt : option string) : M json :=
  try_except
    (response <- session_post (base_url ++ "/api/generate")
                   (JObj (payload prompt model system_prompt)) (Some 60%Z) ;;
     if (status_code response =? 200)%Z
     then body <- response_json response ;;
          py_get body "response"
            (JStr "Sorry, I could not generate a response.")
     else ret (JStr ("Error: " ++ str_of_Z (status_code response)
                       ++ " - " ++ text response)))
    (fun e =>
       if is_timeout e
       then ret (JStr "Request timed out. The model might be processing a complex query.")
       else ret (JStr ("Error connecting to Ollama: " ++ exn_msg e))).

Definition client : Client :=
  mk_client is_available generate_response.
End Methods.
End OllamaClient.

(** [ollama_client = OllamaClient()] *)
Definition the_ollama_client (json_loads : string -> result json)
    (server : trace -> request -> http_outcome) : Client :=
  OllamaClient.client json_loads server OLLAMA_BASE_URL.

(** ** The AI service functions *)

(** A prior turn as [send_message] builds it: a dict whose values are what
    sqlite3 returns for a TEXT column, a [str] or [None]. *)
Definition turn := dict (option string).

(** How an f-string renders such a value. *)
Definition fmt (v : option string) : string :=
  match v with
  | Some s => s
  | None => "None"
  end.

(** [l[-n:]] for a positive [n] *)
Definition last_n {A} (n : nat) (l : list A) : list A :=
  skipn (length l - n) l.

(** [re.search(r'\[.*\]', s, re.DOTALL)]: the matcher tries each start
    position from the left; at a start it reads the opening bracket, lets
    the starred dot take as many characters as it can (any character, a
    newline too) and gives characters back until a closing bracket
    follows. *)
Fixpoint match_dotstar_rbracket (s : string) : option string :=
  match s with
  | EmptyString => None
  | String c rest =>
      match match_dotstar_rbracket rest with
      | Some m => Some (String c m)
      | None => if Ascii.eqb c rbracket
                then Some (String c EmptyString)
                else None
      end
  end.

Fixpoint re_search_brackets (s : string) : option string :=
  match s with
  | EmptyString => None
  | String c rest =>
      match (if Ascii.eqb c lbracket then match_dotstar_rbracket rest else None) with
      | Some m => Some (String c m)
      | None => re_search_brackets rest
      end
  end.

Definition quote (s : string) : string := dq ++ s ++ dq.

Definition chat_system_prompt : string :=
  "You are a helpful AI teaching assistant. You provide clear, educational responses and help students learn various subjects. Be encouraging, patient, and provide examples when helpful. If asked about complex topics, break them down into understandable parts.".

Definition quiz_system_prompt (topic difficulty : string) (num_questions : Z)
  : string :=
  join nl
    [ "You are an expert quiz generator. Create " ++ str_of_Z num_questions
        ++ " multiple choice questions about " ++ topic ++ " at "
        ++ difficulty ++ " level. ";
      EmptyString;
      "Format your response as a JSON array with this exact structure:";
      "[";
      "  {";
      "    " ++ quote "question" ++ ": " ++ quote "Question text here?" ++ ",";
      "    " ++ quote "options" ++ ": [" ++ quote "Option A" ++ ", "
        ++ quote "Option B" ++ ", " ++ quote "Option C" ++ ", "
        ++ quote "Option D" ++ "],";
      "    " ++ quote "correct" ++ ": " ++ quote "A" ++ ",";
      "    " ++ quote "explanation" ++ ": "
        ++ quote "Brief explanation of why this is correct";
      "  }";
      "]";
      EmptyString;
      "Make sure:";
      "- Questions are clear and educational";
      "- Options are plausible but only one is correct";
      "- Difficulty matches the requested level";
      "- Include brief explanations";
      "- Return valid JSON only" ].

Definition quiz_prompt (topic difficulty : string) (num_questions : Z) : string :=
  "Generate " ++ str_of_Z num_questions ++ " " ++ difficulty
    ++ " level multiple choice questions about: " ++ topic.

(** The list returned when Ollama is not available. *)
Definition quiz_unavailable (topic : string) : json :=
  JArr [ JObj [ ("question", JStr ("Sample question about " ++ topic ++ "?"));
                ("options", JArr [JStr "Option A"; JStr "Option B";
                                  JStr "Option C"; JStr "Option D"]);
                ("correct", JStr "A") ] ].

(** The list returned when no JSON could be read from the answer. *)
Definition quiz_fallback (topic : string) : json :=
  JArr [ JObj [ ("question",
                 JStr ("What is an important concept to understand about "
                         ++ topic ++ "?"));
                ("options", JArr [JStr "It requires foundational knowledge";
                                  JStr "It can be learned quickly";
                                  JStr "It has no practical applications";
                                  JStr "It is only theoretical"]);
                ("correct", JStr "A");
                ("explanation",
                 JStr "Understanding foundational concepts is crucial for mastering any topic.") ] ].

Definition pdf_system_prompt : string :=
  "You are an expert educational content creator. Generate comprehensive study material that is well-structured, informative, and educational. Use clear language and provide practical examples.".

Definition section_prompts (topic : string) : dict string :=
  [ ("introduction",
     "Write a comprehensive introduction to " ++ topic ++ ". Explain what it is, why it's important, and what students will learn. Make it engaging and informative (200-300 words).");
    ("key_concepts",
     "List and explain the key concepts, principles, or components of " ++ topic ++ ". Use bullet points or numbered lists for clarity. Include definitions and brief explanations (300-400 words).");
    ("examples",
     "Provide 3-4 practical, real-world examples that illustrate " ++ topic ++ ". Make them relatable and easy to understand. Show how the concepts apply in practice (250-350 words).");
    ("practice_questions",
     "Create 5-7 practice questions about " ++ topic ++ " with brief answers. Include a mix of question types: multiple choice, short answer, and application questions (200-300 words).");
    ("summary",
     "Write a concise summary of " ++ topic ++ " that reinforces the main points. Include key takeaways and suggestions for further learning (150-200 words).") ].

Definition pdf_unavailable (topic : string) : dict json :=
  [ ("introduction", JStr ("This study material covers " ++ topic ++ "."));
    ("key_concepts", JStr ("Key concepts related to " ++ topic ++ "."));
    ("examples", JStr ("Practical examples of " ++ topic ++ "."));
    ("practice_questions", JStr ("Practice questions about " ++ topic ++ "."));
    ("summary", JStr ("Summary of " ++ topic ++ " concepts.")) ].

Definition section_placeholder (section : string) : json :=
  JStr ("Content for " ++ section ++ " could not be generated at this time.").

Definition chat_unavailable : json :=
  JStr "Ollama is not available. Please make sure Ollama is running on your system.".

Section Services.
Variable json_loads : string -> result json.
(** The module-level [ollama_client]. *)
Variable ollama_client : Client.

(** *** generate_chat_response *)

Definition render_turn (msg : turn) : string :=
  "User: " ++ fmt (dict_get "message" (Some EmptyString) msg) ++ nl
    ++ "Assistant: " ++ fmt (dict_get "response" (Some EmptyString) msg).

(** [context] is [None] or a list; [if context:] holds for a non-empty
    list only. *)
Definition context_prompt (context : option (list turn)) : string :=
  match context with
  | Some (m :: ms) =>
      join nl (map render_turn (last_n 5 (m :: ms))) ++ nl ++ nl
  | _ => EmptyString
  end.

Definition full_prompt (message : string) (context : option (list turn))
  : string :=
  context_prompt context ++ "User: " ++ message ++ nl ++ "Assistant:".

Definition generate_chat_response (message : string)
    (context : option (list turn)) : M json :=
  available <- is_available ollama_client ;;
  if negb available then ret chat_unavailable
  else generate_response ollama_client (full_prompt message context)
         DEFAULT_MODEL (Some chat_system_prompt).

(** *** generate_quiz_questions *)

(** [re.search] refuses a subject that is not a string. *)
Definition re_search (subject : json) : M (option string) :=
  match subject with
  | JStr s => ret (re_search_brackets s)
  | _ => raise (mk_exn TypeError "expected string or bytes-like object")
  end.

Definition lift_result {A} (r : result A) : M A := fun tr => (r, tr).

(** Lines 136-158: the [try] block and the fallback after it. *)
Definition extract_quiz_items (topic : string) (response : json) : M json :=
  returned <-
    try_except
      (json_match <- re_search response ;;
       match json_match with
       | Some group =>
           questions_data <- lift_result (json_loads group) ;;
           ret (Some questions_data)
       | None => ret None
       end)
      (fun _ => ret None) ;;
  match returned with
  | Some questions_data => ret questions_data
  | None => ret (quiz_fallback topic)
  end.

Definition generate_quiz_questions (topic difficulty : string)
    (num_questions : Z) : M json :=
  available <- is_available ollama_client ;;
  if negb available then ret (quiz_unavailable topic)
  else
    response <- generate_response ollama_client
                  (quiz_prompt topic difficulty num_questions) DEFAULT_MODEL
                  (Some (quiz_system_prompt topic difficulty num_questions)) ;;
    extract_quiz_items topic response.

(** *** generate_pdf_content *)

(** The [for section, prompt in section_prompts.items()] loop. *)
Fixpoint generate_sections (items : list (string * string))
    (sections : dict json) : M (dict json) :=
  match items with
  | [] => ret sections
  | (section, prompt) :: rest =>
      sections' <-
        try_except
          (content <- generate_response ollama_client prompt DEFAULT_MODEL
                        (Some pdf_system_prompt) ;;
           ret (dict_set section content sections))
          (fun _ => ret (dict_set section (section_placeholder section) sections)) ;;
      generate_sections rest sections'
  end.

Definition generate_pdf_content (topic : string) : M (dict json) :=
  available <- is_available ollama_client ;;
  if negb available then ret (pdf_unavailable topic)
  else generate_sections (section_prompts topic) [].
End Services.

(** ** The chat context of [send_message] *)

(** A row of the [chat_messages] table ([message] is NOT NULL, [response]
    may be NULL). *)
Record chat_message : Type := mk_chat_message {
  cm_session_id : string;
  cm_user_id : string;
  cm_message : string;
  cm_response : option string;
  cm_timestamp : Z
}.

(** [ORDER BY timestamp DESC], as an insertion sort.  Rows with the same
    timestamp stay in the order of the table, which is how SQLite returns
    them. *)
Fixpoint insert_desc (r : chat_message) (rows : list chat_message)
  : list chat_message :=
  match rows with
  | [] => [r]
  | x :: rest =>
      if (cm_timestamp x <=? cm_timestamp r)%Z
      then r :: x :: rest
      else x :: insert_desc r rest
  end.

Definition order_by_timestamp_desc (rows : list chat_message)
  : list chat_message :=
  fold_right insert_desc [] rows.

(** [WHERE session_id = ? AND user_id = ?] *)
Definition where_session (chat_messages : list chat_message)
    (session_id user_id : string) : list chat_message :=
  filter (fun r => String.eqb (cm_session_id r) session_id
                   && String.eqb (cm_user_id r) user_id)
    chat_messages.

(** [SELECT message, response FROM chat_messages
     WHERE session_id = ? AND user_id = ?
     ORDER BY timestamp DESC LIMIT 5] *)
Definition select_context_rows (chat_messages : list chat_message)
    (session_id user_id : string) : list (string * option string) :=
  map (fun r => (cm_message r, cm_response r))
    (firstn 5
       (order_by_timestamp_desc
          (where_session chat_messages session_id user_id))).

Definition row_dict (row : string * option string) : turn :=
  [("message", Some (fst row)); ("response", snd row)].

(** [context = [{...} for row in cursor.fetchall()]; context.reverse()] *)
Definition send_message_context (chat_messages : list chat_message)
    (session_id user_id : string) : list turn :=
  rev (map row_dict (select_context_rows chat_messages session_id user_id)).

(** [ai_response = generate_chat_response(message, context)] *)
Definition send_message_ai_response (ollama_client : Client)
    (chat_messages : list chat_message) (session_id user_id message : string)
  : M json :=
  generate_chat_response ollama_client message
    (Some (send_message_context chat_messages session_id user_id)).

(** ** A reference JSON reader

    The development is parametric in [json.loads].  This reader follows the
    JSON grammar as Python's decoder reads it (white space, literals,
    numbers, strings with the one-character escapes, arrays, objects with
    the last value winning for a repeated key) and instantiates the
    parameter in concrete runs only.  It differs from [json.loads] in what
    those runs do not touch: it leaves out the four-digit [\u] escape, keeps
    a number with a fraction or an exponent as its literal text, has no
    limit on nesting, and its error message does not carry the position. *)

Module JsonRef.

Definition is_ws (c : ascii) : bool :=
  match nat_of_ascii c with
  | 32 | 9 | 10 | 13 => true
  | _ => false
  end.

Fixpoint skip_ws (s : string) : string :=
  match s with
  | String c rest => if is_ws c then skip_ws rest else s
  | EmptyString => s
  end.

Definition is_digit (c : ascii) : bool :=
  (48 <=? nat_of_ascii c)%nat && (nat_of_ascii c <=? 57)%nat.

Fixpoint take_digits (s : string) : string * string :=
  match s with
  | String c rest =>
      if is_digit c
      then let (ds, r) := take_digits rest in (String c ds, r)
      else (EmptyString, s)
  | EmptyString => (EmptyString, s)
  end.

Fixpoint Z_of_digits (acc : Z) (ds : string) : Z :=
  match ds with
  | String c rest => Z_of_digits (10 * acc + Z.of_nat (nat_of_ascii c - 48)) rest
  | EmptyString => acc
  end.

Definition unescape (c : ascii) : option ascii :=
  match nat_of_ascii c with
  | 34 => Some "034"%char
  | 92 => Some "092"%char
  | 47 => Some "047"%char
  | 98 => Some "008"%char
  | 102 => Some "012"%char
  | 110 => Some "010"%char
  | 114 => Some "013"%char
  | 116 => Some "009"%char
  | _ => None
  end.

(** The characters after an opening quote, up to the closing one. *)
Fixpoint read_string (s : string) : option (string * string) :=
  match s with
  | EmptyString => None
  | String c rest =>
      if Ascii.eqb c "034"%char then Some (EmptyString, rest)
      else if Ascii.eqb c "092"%char then
        match rest with
        | String e rest' =>
            match unescape e, read_string rest' with
            | Some c', Some (body, r) => Some (String c' body, r)
            | _, _ => None
            end
        | EmptyString => None
        end
      else if (nat_of_ascii c <? 32)%nat then None
      else match read_string rest with
           | Some (body, r) => Some (String c body, r)
           | None => None
           end
  end.

(** The integer part is a lone zero or starts with a non-zero digit. *)
Definition take_int_part (s : string) : string * string :=
  match s with
  | String c rest =>
      if Ascii.eqb c "0"%char then (String c EmptyString, rest)
      else take_digits s
  | EmptyString => (EmptyString, s)
  end.

Definition take_frac (s : string) : string * string :=
  match s with
  | String c rest =>
      if Ascii.eqb c "."%char then
        match take_digits rest with
        | (EmptyString, _) => (EmptyString, s)
        | (ds, r) => (String c ds, r)
        end
      else (EmptyString, s)
  | EmptyString => (EmptyString, s)
  end.

Definition take_exp (s : string) : string * string :=
  match s with
  | String c rest =>
      if Ascii.eqb c "e"%char || Ascii.eqb c "E"%char then
        let (sign, rest') :=
          match rest with
          | String g r =>
              if Ascii.eqb g "+"%char || Ascii.eqb g "-"%char
              then (String g EmptyString, r) else (EmptyString, rest)
          | EmptyString => (EmptyString, rest)
          end in
        match take_digits rest' with
        | (EmptyString, _) => (EmptyString, s)
        | (ds, r) => (String c (sign ++ ds), r)
        end
      else (EmptyString, s)
  | EmptyString => (EmptyString, s)
  end.

Definition read_number (s : string) : option (json * string) :=
  let (neg, s1) :=
    match s with
    | String c rest => if Ascii.eqb c "-"%char then (true, rest) else (false, s)
    | EmptyString => (false, s)
    end in
  match take_int_part s1 with
  | (EmptyString, _) => None
  | (ds, s2) =>
      let (frac, s3) := take_frac s2 in
      let (ex, s4) := take_exp s3 in
      match frac, ex with
      | EmptyString, EmptyString =>
          Some (JInt (if neg then - Z_of_digits 0 ds else Z_of_digits 0 ds), s4)
      | _, _ =>
          Some (JFloat ((if neg then "-" else EmptyString) ++ ds ++ frac ++ ex), s4)
      end
  end.

Fixpoint strip_prefix (p s : string) : option string :=
  match p, s with
  | EmptyString, _ => Some s
  | String a p', String b s' => if Ascii.eqb a b then strip_prefix p' s' else None
  | String _ _, EmptyString => None
  end.

Definition read_literal (s : string) : option (json * string) :=
  match strip_prefix "null" s with
  | Some r => Some (JNull, r)
  | None =>
  match strip_prefix "true" s with
  | Some r => Some (JBool true, r)
  | None =>
  match strip_prefix "false" s with
  | Some r => Some (JBool false, r)
  | None =>
  match strip_prefix "NaN" s with
  | Some r => Some (JFloat "NaN", r)
  | None =>
  match strip_prefix "Infinity" s with
  | Some r => Some (JFloat "Infinity", r)
  | None =>
  match strip_prefix "-Infinity" s with
  | Some r => Some (JFloat "-Infinity", r)
  | None => read_number s
  end end end end end end.

Fixpoint read_value (fuel : nat) (s : string) {struct fuel}
  : option (json * string) :=
  match fuel with
  | O => None
  | S fuel' =>
      match skip_ws s with
      | EmptyString => None
      | String c rest =>
          if Ascii.eqb c lbracket then
            match skip_ws rest with
            | String c' rest' =>
                if Ascii.eqb c' rbracket then Some (JArr [], rest')
                else read_items fuel' rest []
            | EmptyString => None
            end
          else if Ascii.eqb c "{"%char then
            match skip_ws rest with
            | String c' rest' =>
                if Ascii.eqb c' "}"%char then Some (JObj [], rest')
                else read_members fuel' rest []
            | EmptyString => None
            end
          else if Ascii.eqb c "034"%char then
            match read_string rest with
            | Some (str, r) => Some (JStr str, r)
            | None => None
            end
          else read_literal (String c rest)
      end
  end
with read_items (fuel : nat) (s : string) (acc : list json) {struct fuel}
  : option (json * string) :=
  match fuel with
  | O => None
  | S fuel' =>
      match read_value fuel' s with
      | Some (v, r) =>
          match skip_ws r with
          | String c r' =>
              if Ascii.eqb c ","%char then read_items fuel' r' (v :: acc)
              else if Ascii.eqb c rbracket then Some (JArr (rev (v :: acc)), r')
              else None
          | EmptyString => None
          end
      | None => None
      end
  end
with read_members (fuel : nat) (s : string) (acc : dict json) {struct fuel}
  : option (json * string) :=
  match fuel with
  | O => None
  | S fuel' =>
      match skip_ws s with
      | String q rest =>
          if Ascii.eqb q "034"%char then
            match read_string rest with
            | Some (key, r) =>
                match skip_ws r with
                | String colon r1 =>
                    if Ascii.eqb colon ":"%char then
                      match read_value fuel' r1 with
                      | Some (v, r2) =>
                          match skip_ws r2 with
                          | String c r3 =>
                              if Ascii.eqb c ","%char
                              then read_members fuel' r3 (dict_set key v acc)
                              else if Ascii.eqb c "}"%char
                              then Some (JObj (dict_set key v acc), r3)
                              else None
                          | EmptyString => None
                          end
                      | None => None
                      end
                    else None
                | EmptyString => None
                end
            | None => None
            end
          else None
      | EmptyString => None
      end
  end.

Definition loads (s : string) : result json :=
  match read_value (2 * String.length s + 2) s with
  | Some (v, r) =>
      match skip_ws r with
      | EmptyString => Ok v
      | String _ _ => Raise (mk_exn JSONDecodeError "Extra data")
      end
  | None => Raise (mk_exn JSONDecodeError "Expecting value")
  end.

End JsonRef.

(** ** Predicates on quiz items, texts and sections *)

(** The letter of an option and the option it points at. *)
Definition label_index (label : string) : option nat :=
  if String.eqb label "A" then Some 0
  else if String.eqb label "B" then Some 1
  else if String.eqb label "C" then Some 2
  else if String.eqb label "D" then Some 3
  else None.

Definition label_refers (correct : json) (options : list json) : bool :=
  match correct with
  | JStr label =>
      match label_index label with
      | Some i => match nth_error options i with
                  | Some _ => true
                  | None => false
                  end
      | None => false
      end
  | _ => false
  end.

(** A quiz item as the specified invariant has it: exactly 4 options and a
    correct label among A, B, C, D that points at one of them. *)
Definition well_formed_item (item : json) : bool :=
  match item with
  | JObj d =>
      match dict_lookup "options" d, dict_lookup "correct" d with
      | Some (JArr options), Some correct =>
          (length options =? 4)%nat && label_refers correct options
      | _, _ => false
      end
  | _ => false
  end.

(** A non-empty sequence of such items. *)
Definition well_formed_quiz (v : json) : bool :=
  match v with
  | JArr (item :: items) => forallb well_formed_item (item :: items)
  | _ => false
  end.

Definition nonempty_question (item : json) : bool :=
  match item with
  | JObj d =>
      match dict_lookup "question" d with
      | Some (JStr (String _ _)) => true
      | _ => false
      end
  | _ => false
  end.

(** The per-object validation the specification describes. *)
Definition validated_item (item : json) : bool :=
  nonempty_question item && well_formed_item item.

Definition has_key (k : string) (item : json) : bool :=
  match item with
  | JObj d => match dict_lookup k d with
              | Some _ => true
              | None => false
              end
  | _ => false
  end.

(** The span of a text from its first opening bracket to its last closing
    bracket, as the specification words the search. *)
Fixpoint index_of (c : ascii) (s : string) : option nat :=
  match s with
  | EmptyString => None
  | String a rest =>
      if Ascii.eqb a c then Some 0 else option_map S (index_of c rest)
  end.

Fixpoint last_index_of (c : ascii) (s : string) : option nat :=
  match s with
  | EmptyString => None
  | String a rest =>
      match last_index_of c rest with
      | Some j => Some (S j)
      | None => if Ascii.eqb a c then Some 0 else None
      end
  end.

Definition bracket_span (s : string) : option string :=
  match index_of lbracket s, last_index_of rbracket s with
  | Some i, Some j =>
      if (i <? j)%nat then Some (substring i (j - i + 1) s) else None
  | _, _ => None
  end.

(** The turn a stored message stands for, and a history whose rows come in
    strictly increasing time. *)
Definition turn_of_message (r : chat_message) : turn :=
  [("message", Some (cm_message r)); ("response", cm_response r)].

Definition chronological (rows : list chat_message) : Prop :=
  StronglySorted (fun a b => (cm_timestamp a < cm_timestamp b)%Z) rows.

(** What the parsing step returns, case by case. *)
Definition extracted (json_loads : string -> result json) (topic : string)
    (response : json) : json :=
  match response with
  | JStr s =>
      match re_search_brackets s with
      | Some group =>
          match json_loads group with
          | Ok questions_data => questions_data
          | Raise _ => quiz_fallback topic
          end
      | None => quiz_fallback topic
      end
  | _ => quiz_fallback topic
  end.

(** What a section holds after its call: the content, or the placeholder
    when the call raised. *)
Definition section_value (section : string) (r : result json) : json :=
  match r with
  | Ok content => content
  | Raise _ => section_placeholder section
  end.

Definition section_keys : list string :=
  ["introduction"; "key_concepts"; "examples"; "practice_questions"; "summary"].

(** ** Concrete runs *)

(** A server that answers the n-th request with the n-th outcome of a
    script, and refuses the connection once the script is used up. *)
Definition connection_refused : exn :=
  mk_exn RequestsError "Connection refused".

Definition scripted (outcomes : list http_outcome)
  : trace -> request -> http_outcome :=
  fun tr _ => nth (length tr) outcomes (Failed connection_refused).

Definition answer (status : Z) (body : string) : http_outcome :=
  Responded (mk_response status body).

(** The body of the model listing, for the probe. *)
Definition tags_body : string :=
  "{" ++ quote "models" ++ ": []}".

(** The JSON body [{ "response": text }] for a text without quotes. *)
Definition response_body (plain : string) : string :=
  "{" ++ quote "response" ++ ": " ++ quote plain ++ "}".

Definition probe_request : request :=
  mk_request GET (OLLAMA_BASE_URL ++ "/api/tags") None (Some 5%Z).

Definition read_timeout : exn := mk_exn RequestsTimeout "Read timed out.".

(** The model output of the specification's scenario. *)
Definition wrapped_quiz_text : string :=
  "Sure! Here you go: [{" ++ quote "question" ++ ":" ++ quote "Q1?" ++ ","
    ++ quote "options" ++ ":[" ++ quote "A" ++ "," ++ quote "B" ++ ","
    ++ quote "C" ++ "," ++ quote "D" ++ "]," ++ quote "correct" ++ ":"
    ++ quote "B" ++ "}] Hope that helps.".

Definition wrapped_quiz_items : json :=
  JArr [ JObj [ ("question", JStr "Q1?");
                ("options", JArr [JStr "A"; JStr "B"; JStr "C"; JStr "D"]);
                ("correct", JStr "B") ] ].

(** A model output whose first object fails every check while the second
    is a proper item. *)
Definition mixed_quiz_text : string :=
  "[{" ++ quote "question" ++ ": " ++ quote EmptyString ++ ", "
    ++ quote "options" ++ ": [" ++ quote "only" ++ "], "
    ++ quote "correct" ++ ": " ++ quote "Z" ++ "}, {"
    ++ quote "question" ++ ": " ++ quote "Q2?" ++ ", "
    ++ quote "options" ++ ": [" ++ quote "A" ++ ", " ++ quote "B" ++ ", "
    ++ quote "C" ++ ", " ++ quote "D" ++ "], "
    ++ quote "correct" ++ ": " ++ quote "C" ++ "}]".

Definition mixed_quiz_items : json :=
  JArr [ JObj [ ("question", JStr EmptyString);
                ("options", JArr [JStr "only"]);
                ("correct", JStr "Z") ];
         JObj [ ("question", JStr "Q2?");
                ("options", JArr [JStr "A"; JStr "B"; JStr "C"; JStr "D"]);
                ("correct", JStr "C") ] ].

Definition stored_turn (user_text model_text : string) : turn :=
  [("message", Some user_text); ("response", Some model_text)].

(** A client whose generation call raises for the prompt of one section. *)
Definition flaky_client (failing_prompt : string) : Client :=
  mk_client (ret true)
    (fun prompt _ _ =>
       if String.eqb prompt failing_prompt
       then raise read_timeout
       else ret (JStr ("Generated: " ++ prompt))).

Definition seven_turns : list turn :=
  [ stored_turn "q1" "a1"; stored_turn "q2" "a2"; stored_turn "q3" "a3";
    stored_turn "q4" "a4"; stored_turn "q5" "a5"; stored_turn "q6" "a6";
    stored_turn "q7" "a7" ].

Definition stored (session_id user_id message response : string) (t : Z)
  : chat_message :=
  mk_chat_message session_id user_id message (Some response) t.

Definition seven_messages : list chat_message :=
  [ stored "s" "u" "q1" "a1" 1; stored "s" "u" "q2" "a2" 2;
    stored "other" "u" "x" "y" 3;
    stored "s" "u" "q3" "a3" 4; stored "s" "u" "q4" "a4" 5;
    stored "s" "u" "q5" "a5" 6; stored "s" "u" "q6" "a6" 7;
    stored "s" "u" "q7" "a7" 8 ].

(** ** The web handlers *)

(** The Flask session.  The messages flashed and not yet shown live in it
    too, under [_flashes], as a list of [(category, message)] pairs. *)
Definition web : Type := dict json.

Inductive reply : Type :=
| Redirect (endpoint : string)
| Render (template : string) (context : dict json).

Definition view : Type := web -> M (reply * web).

(** [session.get('_flashes', [])], as the list [flash] appends to; a value
    that is not a list has no [append]. *)
Definition pending_flashes (w : web) : result (list json) :=
  match dict_lookup "_flashes" w with
  | None => Ok []
  | Some (JArr pending) => Ok pending
  | Some v => Raise (mk_exn AttributeError
                       ("'" ++ py_type_name v ++ "' object has no attribute 'append'"))
  end.


(** [session[k] = v] *)
Definition session_set (k : string) (v : json) (w : web) : web :=
  dict_set k v w.

(** [k in session] *)
Definition in_session (k : string) (w : web) : bool :=
  match dict_lookup k w with
  | Some _ => true
  | None => false
  end.


(** The decorator [login_required]. *)
Definition login_required (f : view) : view :=
  fun w =>
    if negb (in_session "user_id" w) then ret (Redirect "login", w)
    else f w.



Section Login.
(** [str.strip()] and [str.title()], of the Python standard library, and
    the text [datetime.now().strftime('%Y%m%d%H%M%S')] of the clock. *)
Variable py_strip : string -> string.
Variable py_title : string -> string.
Variable now : string.

End Login.

Section Dashboard.
Variable json_loads : string -> result json.
Variable server : trace -> request -> http_outcome.

(** The body of the route [/dashboard]. *)
Definition dashboard : view :=
  fun w =>
    ollama_status <- OllamaClient.is_available server OLLAMA_BASE_URL ;;
    available_models <-
      (if ollama_status : bool
       then OllamaClient.list_models json_loads server OLLAMA_BASE_URL
       else ret (JArr [])) ;;
    ret (Render "dashboard.html"
           [("ollama_status", JBool ollama_status);
            ("available_models", available_models)], w).
End Dashboard.

(** ** Pieces of send_message, generate_pdf, start_quiz and submit_quiz *)

(** [message[:50] + "..." if len(message) > 50 else message] *)
Definition chat_title (message : string) : string :=
  if (50 <? String.length message)%nat
  then substring 0 50 message ++ "..."
  else message.

(** [s.replace(old, new)] for one-character [old] and [new] *)
Fixpoint replace_char (old new : ascii) (s : string) : string :=
  match s with
  | EmptyString => EmptyString
  | String c rest =>
      String (if Ascii.eqb c old then new else c) (replace_char old new rest)
  end.

(** [download_name] of the generated file. *)
Definition download_name (topic : string) : string :=
  replace_char " "%char "_"%char topic ++ "_study_material.pdf".

(** Subscripts on a decoded value.  A decoded dict has string keys only. *)
Definition key_error (k : string) : exn :=
  mk_exn OtherException ("'" ++ k ++ "'").

Definition not_subscriptable (v : json) : exn :=
  mk_exn TypeError ("'" ++ py_type_name v ++ "' object is not subscriptable").

(** [v[k]] for a string [k] *)
Definition getitem_key (v : json) (k : string) : result json :=
  match v with
  | JObj d => match dict_lookup k d with
              | Some x => Ok x
              | None => Raise (key_error k)
              end
  | JArr _ => Raise (mk_exn TypeError "list indices must be integers or slices, not str")
  | JStr _ => Raise (mk_exn TypeError "string indices must be integers, not 'str'")
  | _ => Raise (not_subscriptable v)
  end.

(** [v[i]] for a non-negative integer [i] *)
Definition getitem_index (v : json) (i : nat) : result json :=
  match v with
  | JArr items => match nth_error items i with
                  | Some x => Ok x
                  | None => Raise (mk_exn OtherException "list index out of range")
                  end
  | JStr s => match String.get i s with
              | Some c => Ok (JStr (String c EmptyString))
              | None => Raise (mk_exn OtherException "string index out of range")
              end
  | JObj _ => Raise (mk_exn OtherException (str_of_Z (Z.of_nat i)))
  | _ => Raise (not_subscriptable v)
  end.

(** [v.get(k, default)] *)
Definition get_or (v : json) (k : string) (default : json) : result json :=
  match v with
  | JObj d => Ok (dict_get k default d)
  | _ => Raise (mk_exn AttributeError
                  ("'" ++ py_type_name v ++ "' object has no attribute 'get'"))
  end.

Definition and_then {A B} (r : result A) (k : A -> result B) : result B :=
  match r with
  | Ok a => k a
  | Raise e => Raise e
  end.

(** The values start_quiz binds for one question, after the quiz id:
    [q['question'], q['options'][0], ..., q['options'][3], q['correct'],
     q.get('explanation', '')], evaluated from left to right. *)
Definition question_params (q : json) : result (list json) :=
  and_then (getitem_key q "question") (fun question =>
  and_then (and_then (getitem_key q "options") (fun o => getitem_index o 0)) (fun a =>
  and_then (and_then (getitem_key q "options") (fun o => getitem_index o 1)) (fun b =>
  and_then (and_then (getitem_key q "options") (fun o => getitem_index o 2)) (fun c =>
  and_then (and_then (getitem_key q "options") (fun o => getitem_index o 3)) (fun d =>
  and_then (getitem_key q "correct") (fun correct =>
  and_then (get_or q "explanation" (JStr EmptyString)) (fun explanation =>
  Ok [question; a; b; c; d; correct; explanation]))))))).

(** The loop [for i, q in enumerate(questions)] over a list of questions:
    it stops at the first question whose values cannot be read. *)
Fixpoint questions_params (questions : list json) : result (list (list json)) :=
  match questions with
  | [] => Ok []
  | q :: rest =>
      and_then (question_params q) (fun row =>
      and_then (questions_params rest) (fun rows => Ok (row :: rows)))
  end.

(** A row of [quiz_questions] as submit_quiz selects it:
    [id, correct_answer, explanation]. *)
Record stored_question : Type := mk_stored_question {
  sq_id : Z;
  sq_correct_answer : string;
  sq_explanation : option string
}.

(** An entry of [results]. *)
Record graded : Type := mk_graded {
  g_question_id : Z;
  g_user_answer : string;
  g_correct_answer : string;
  g_is_correct : bool;
  g_explanation : option string
}.

(** What the grading loop has built so far: [correct_count], [results] and
    the [UPDATE quiz_questions SET user_answer = ? WHERE id = ?] it ran. *)
Record grading : Type := mk_grading {
  correct_count : nat;
  results : list graded;
  updates : list (string * Z)
}.

(** [answers.get(f'question_{q_id}', '')] *)
Definition answer_for (answers : dict string) (q_id : Z) : string :=
  dict_get ("question_" ++ str_of_Z q_id) EmptyString answers.

(** The loop [for q_id, correct_answer, explanation in questions]. *)
Fixpoint grade (questions : list stored_question) (answers : dict string)
    (acc : grading) : grading :=
  match questions with
  | [] => acc
  | q :: rest =>
      let user_answer := answer_for answers (sq_id q) in
      let is_correct := String.eqb user_answer (sq_correct_answer q) in
      grade rest answers
        (mk_grading
           (if is_correct then S (correct_count acc) else correct_count acc)
           (results acc ++ [mk_graded (sq_id q) user_answer (sq_correct_answer q)
                              is_correct (sq_explanation q)])%list
           (updates acc ++ [(user_answer, sq_id q)])%list)
  end.

(** The score: the integer 0, or the floating-point value of
    [(correct_count / total_questions) * 100], kept as its two operands. *)
Inductive score : Type :=
| ScoreZero
| ScorePercent (correct total : nat).

Definition quiz_score (correct_count total_questions : nat) : score :=
  if (0 <? total_questions)%nat
  then ScorePercent correct_count total_questions
  else ScoreZero.

(** The request that asks for a quiz. *)
Definition quiz_request (topic difficulty : string) (num_questions : Z) : request :=
  OllamaClient.generate_request OLLAMA_BASE_URL
    (quiz_prompt topic difficulty num_questions) DEFAULT_MODEL
    (Some (quiz_system_prompt topic difficulty num_questions)).

(** The request that asks for one section of a document. *)
Definition section_request (prompt : string) : request :=
  OllamaClient.generate_request OLLAMA_BASE_URL prompt DEFAULT_MODEL
    (Some pdf_system_prompt).

(** Rows ordered newest first, ties allowed. *)
Definition newer_first (a b : chat_message) : Prop :=
  (cm_timestamp b <= cm_timestamp a)%Z.

(** An item all of whose values start_quiz can read: it has a question and
    is well formed. *)
Definition storable (item : json) : bool :=
  has_key "question" item && well_formed_item item.

(** The entry of [results] for one stored question. *)
Definition graded_of (answers : dict string) (q : stored_question) : graded :=
  mk_graded (sq_id q) (answer_for answers (sq_id q)) (sq_correct_answer q)
    (String.eqb (answer_for answers (sq_id q)) (sq_correct_answer q))
    (sq_explanation q).

(** ** Reference text functions for concrete runs

    [str.strip] and [str.title] restricted to ASCII text. *)











(** * Properties *)

(** ** Running the monad *)

Definition run {A} (c : M A) (tr : trace) : result A := fst (c tr).
Definition sent {A} (c : M A) (tr : trace) : trace := snd (c tr).

Lemma run_sent {A} (c : M A) (tr : trace) : c tr = (run c tr, sent c tr).
Proof. unfold run, sent. now destruct (c tr). Qed.

Ltac unfold_client :=
  unfold OllamaClient.generate_response, OllamaClient.is_available,
    OllamaClient.generate_request, OllamaClient.session_post,
    OllamaClient.session_get, OllamaClient.send, OllamaClient.response_json,
    OllamaClient.py_get, try_except, bind, ret, raise.

(** ** OllamaClient.generate_response *)

Section GenerateResponse.
Variable json_loads : string -> result json.
Variable server : trace -> request -> http_outcome.
Variable base_url : string.

Let generate := OllamaClient.generate_response json_loads server base_url.
Let request_of := OllamaClient.generate_request base_url.

(** Whatever the server does, the call returns a value and has sent the
    one POST request. *)
Lemma generate_response_returns prompt model system_prompt tr :
  exists v,
    generate prompt model system_prompt tr
    = (Ok v, (tr ++ [request_of prompt model system_prompt])%list).
Proof.
  subst generate request_of. unfold_client.
  destruct (server tr _) as [resp | e].
  - destruct (status_code resp =? 200)%Z.
    + destruct (json_loads (text resp)) as [body | e].
      * destruct body; cbn; try (destruct (is_timeout _)); eauto.
      * destruct (is_timeout e); eauto.
    + eauto.
  - destruct (is_timeout e); eauto.
Qed.

Lemma generate_response_200 prompt model system_prompt tr resp body :
  server tr (request_of prompt model system_prompt) = Responded resp ->
  status_code resp = 200%Z ->
  json_loads (text resp) = Ok (JObj body) ->
  run (generate prompt model system_prompt) tr
  = Ok (dict_get "response"
          (JStr "Sorry, I could not generate a response.") body).
Proof.
  subst generate request_of. unfold run. unfold_client.
  intros -> Hs ->. now rewrite Hs.
Qed.

Lemma generate_response_not_200 prompt model system_prompt tr resp :
  server tr (request_of prompt model system_prompt) = Responded resp ->
  status_code resp <> 200%Z ->
  run (generate prompt model system_prompt) tr
  = Ok (JStr ("Error: " ++ str_of_Z (status_code resp) ++ " - " ++ text resp)).
Proof.
  subst generate request_of. unfold run. unfold_client.
  intros -> Hs. apply Z.eqb_neq in Hs. now rewrite Hs.
Qed.

Lemma generate_response_failed prompt model system_prompt tr e :
  server tr (request_of prompt model system_prompt) = Failed e ->
  run (generate prompt model system_prompt) tr
  = Ok (JStr (if is_timeout e
              then "Request timed out. The model might be processing a complex query."
              else "Error connecting to Ollama: " ++ exn_msg e)).
Proof.
  subst generate request_of. unfold run. unfold_client.
  intros ->. now destruct (is_timeout e).
Qed.
End GenerateResponse.

(** C7. [generate_response] never raises: it always returns a value, after
    sending one POST.  A 200 answer whose body is a JSON object holding
    [response] yields that field; an answer with another status yields the
    text built from the status code and the body; a timeout yields the fixed
    timeout message; any other transport failure yields the text that starts
    with "Error connecting". *)
Theorem generate_response_outcomes
    (json_loads : string -> result json)
    (server : trace -> request -> http_outcome)
    (base_url prompt model : string) (system_prompt : option string)
    (tr : trace) :
  let generate :=
    OllamaClient.generate_response json_loads server base_url
      prompt model system_prompt in
  let req := OllamaClient.generate_request base_url prompt model system_prompt in
  (exists v, generate tr = (Ok v, (tr ++ [req])%list))
  /\ (forall resp body v,
        server tr req = Responded resp ->
        status_code resp = 200%Z ->
        json_loads (text resp) = Ok (JObj body) ->
        dict_lookup "response" body = Some v ->
        run generate tr = Ok v)
  /\ (forall resp,
        server tr req = Responded resp ->
        status_code resp <> 200%Z ->
        run generate tr
        = Ok (JStr ("Error: " ++ str_of_Z (status_code resp)
                      ++ " - " ++ text resp)))
  /\ (forall e,
        server tr req = Failed e ->
        is_timeout e = true ->
        run generate tr
        = Ok (JStr "Request timed out. The model might be processing a complex query."))
  /\ (forall e,
        server tr req = Failed e ->
        is_timeout e = false ->
        run generate tr
        = Ok (JStr ("Error connecting to Ollama: " ++ exn_msg e))).
Proof.
  intros generate req. subst generate req.
  split; [apply generate_response_returns |].
  split.
  { intros resp body v Hsrv Hs Hb Hv.
    rewrite (generate_response_200 _ _ _ _ _ _ _ _ _ Hsrv Hs Hb).
    unfold dict_get. now rewrite Hv. }
  split; [intros; now apply generate_response_not_200 |].
  split; intros e Hsrv He;
    rewrite (generate_response_failed _ _ _ _ _ _ _ _ Hsrv); now rewrite He.
Qed.

Lemma generate_response_outcomes_witness :
  run (OllamaClient.generate_response JsonRef.loads
         (scripted [answer 200 (response_body "Plants make sugar from light.")])
         OLLAMA_BASE_URL "What is photosynthesis?" DEFAULT_MODEL None) []
  = Ok (JStr "Plants make sugar from light.")
  /\ run (OllamaClient.generate_response JsonRef.loads
            (scripted [answer 500 "boom"])
            OLLAMA_BASE_URL "What is photosynthesis?" DEFAULT_MODEL None) []
     = Ok (JStr "Error: 500 - boom")
  /\ run (OllamaClient.generate_response JsonRef.loads
            (scripted [Failed read_timeout])
            OLLAMA_BASE_URL "What is photosynthesis?" DEFAULT_MODEL None) []
     = Ok (JStr "Request timed out. The model might be processing a complex query.")
  /\ run (OllamaClient.generate_response JsonRef.loads
            (scripted [])
            OLLAMA_BASE_URL "What is photosynthesis?" DEFAULT_MODEL None) []
     = Ok (JStr "Error connecting to Ollama: Connection refused").
Proof.
  split; [| split; [| split]].
  - destruct (generate_response_outcomes JsonRef.loads
                (scripted [answer 200 (response_body "Plants make sugar from light.")])
                OLLAMA_BASE_URL "What is photosynthesis?" DEFAULT_MODEL None [])
      as (_ & H & _).
    eapply H; [reflexivity | reflexivity | vm_compute; reflexivity | reflexivity].
  - destruct (generate_response_outcomes JsonRef.loads
                (scripted [answer 500 "boom"])
                OLLAMA_BASE_URL "What is photosynthesis?" DEFAULT_MODEL None [])
      as (_ & _ & H & _).
    apply (H (mk_response 500 "boom")); [reflexivity | discriminate].
  - destruct (generate_response_outcomes JsonRef.loads
                (scripted [Failed read_timeout])
                OLLAMA_BASE_URL "What is photosynthesis?" DEFAULT_MODEL None [])
      as (_ & _ & _ & H & _).
    apply (H read_timeout); reflexivity.
  - destruct (generate_response_outcomes JsonRef.loads
                (scripted [])
                OLLAMA_BASE_URL "What is photosynthesis?" DEFAULT_MODEL None [])
      as (_ & _ & _ & _ & H).
    apply (H connection_refused); reflexivity.
Defined.

(** C10. A 200 answer whose JSON body is an object without the [response]
    key makes [generate_response] return the fixed apology text: it neither
    raises nor returns an empty string. *)
Theorem generate_response_missing_key
    (json_loads : string -> result json)
    (server : trace -> request -> http_outcome)
    (base_url prompt model : string) (system_prompt : option string)
    (tr : trace) (resp : response) (body : dict json) :
  server tr (OllamaClient.generate_request base_url prompt model system_prompt)
  = Responded resp ->
  status_code resp = 200%Z ->
  json_loads (text resp) = Ok (JObj body) ->
  dict_lookup "response" body = None ->
  OllamaClient.generate_response json_loads server base_url
    prompt model system_prompt tr
  = (Ok (JStr "Sorry, I could not generate a response."),
     (tr ++ [OllamaClient.generate_request base_url prompt model system_prompt])%list).
Proof.
  intros Hsrv Hs Hb Hk.
  destruct (generate_response_returns json_loads server base_url
              prompt model system_prompt tr) as [v Hv].
  pose proof (generate_response_200 json_loads server base_url
                prompt model system_prompt tr resp body Hsrv Hs Hb) as Hrun.
  unfold run in Hrun. rewrite Hv in Hrun. cbn in Hrun.
  rewrite Hv. unfold dict_get in Hrun. rewrite Hk in Hrun.
  now inversion Hrun.
Qed.

Lemma generate_response_missing_key_witness :
  OllamaClient.generate_response JsonRef.loads
    (scripted [answer 200 tags_body]) OLLAMA_BASE_URL
    "What is gravity?" DEFAULT_MODEL (Some chat_system_prompt) []
  = (Ok (JStr "Sorry, I could not generate a response."),
     [OllamaClient.generate_request OLLAMA_BASE_URL "What is gravity?"
        DEFAULT_MODEL (Some chat_system_prompt)]).
Proof.
  apply (generate_response_missing_key JsonRef.loads
           (scripted [answer 200 tags_body]) OLLAMA_BASE_URL
           "What is gravity?" DEFAULT_MODEL (Some chat_system_prompt) []
           (mk_response 200 tags_body) [("models", JArr [])]).
  - reflexivity.
  - reflexivity.
  - vm_compute; reflexivity.
  - reflexivity.
Defined.

(** ** OllamaClient.is_available *)

Section Probe.
Variable json_loads : string -> result json.
Variable server : trace -> request -> http_outcome.

Let probe := OllamaClient.is_available server OLLAMA_BASE_URL.

(** The probe never raises and sends exactly the one GET. *)
Lemma is_available_returns tr :
  exists b, probe tr = (Ok b, (tr ++ [probe_request])%list).
Proof.
  subst probe. unfold_client. unfold probe_request.
  destruct (server tr _); eauto.
Qed.

(** It answers [True] exactly when the server responds with status 200; a
    network error, a timeout or any other status gives [False]. *)
Lemma is_available_outcome tr :
  run probe tr
  = Ok (match server tr probe_request with
        | Responded resp => (status_code resp =? 200)%Z
        | Failed _ => false
        end).
Proof.
  subst probe. unfold run. unfold_client. unfold probe_request.
  now destruct (server tr _).
Qed.

Lemma is_available_sent tr :
  sent probe tr = (tr ++ [probe_request])%list.
Proof.
  destruct (is_available_returns tr) as [b Hb].
  unfold sent. now rewrite Hb.
Qed.

Lemma is_available_run tr b :
  run probe tr = Ok b -> probe tr = (Ok b, (tr ++ [probe_request])%list).
Proof.
  destruct (is_available_returns tr) as [b' Hb].
  unfold run. rewrite Hb. cbn. now intros [= ->].
Qed.

Lemma generation_calls_probe tr :
  generation_calls (tr ++ [probe_request])%list = generation_calls tr.
Proof.
  unfold generation_calls. rewrite filter_app. cbn. apply app_nil_r.
Qed.
End Probe.

(** ** generate_chat_response *)

(** C6. When the availability probe fails, [generate_chat_response] returns
    the fixed unavailability message for every message and context, and the
    only request it has sent is the probe: no generation call is made. *)
Theorem chat_unavailable_short_circuit
    (json_loads : string -> result json)
    (server : trace -> request -> http_outcome)
    (message : string) (context : option (list turn)) (tr : trace) :
  run (OllamaClient.is_available server OLLAMA_BASE_URL) tr = Ok false ->
  generate_chat_response (the_ollama_client json_loads server) message context tr
  = (Ok (JStr "Ollama is not available. Please make sure Ollama is running on your system."),
     (tr ++ [probe_request])%list)
  /\ generation_calls
       (sent (generate_chat_response (the_ollama_client json_loads server)
                message context) tr)
     = generation_calls tr.
Proof.
  intros Hprobe. apply is_available_run in Hprobe.
  assert (generate_chat_response (the_ollama_client json_loads server)
            message context tr
          = (Ok chat_unavailable, (tr ++ [probe_request])%list)) as Hrun.
  { unfold generate_chat_response, the_ollama_client, OllamaClient.client, bind.
    cbn [is_available]. now rewrite Hprobe. }
  split; [exact Hrun |].
  unfold sent. rewrite Hrun. apply generation_calls_probe.
Qed.

Lemma chat_unavailable_short_circuit_witness :
  generate_chat_response (the_ollama_client JsonRef.loads (scripted []))
    "What is gravity?" (Some []) []
  = (Ok (JStr "Ollama is not available. Please make sure Ollama is running on your system."),
     [probe_request])
  /\ generation_calls
       (sent (generate_chat_response (the_ollama_client JsonRef.loads (scripted []))
                "What is gravity?" (Some [])) [])
     = [].
Proof.
  apply (chat_unavailable_short_circuit JsonRef.loads (scripted [])
           "What is gravity?" (Some []) []).
  reflexivity.
Defined.

Lemma last_n_app {A} (older recent : list A) :
  last_n (length recent) (older ++ recent)%list = recent.
Proof.
  unfold last_n. rewrite length_app.
  replace (length older + length recent - length recent)%nat
    with (length older) by lia.
  rewrite skipn_app, skipn_all, Nat.sub_diag. reflexivity.
Qed.

Lemma last_n_short {A} (n : nat) (l : list A) :
  (length l <= n)%nat -> last_n n l = l.
Proof.
  intros H. unfold last_n.
  replace (length l - n)%nat with 0%nat by lia. reflexivity.
Qed.

Lemma context_prompt_recent (older recent : list turn) :
  length recent = 5%nat ->
  context_prompt (Some (older ++ recent)%list)
  = join nl (map render_turn recent) ++ nl ++ nl.
Proof.
  intros H. unfold context_prompt.
  pose proof (last_n_app older recent) as Hlast. rewrite H in Hlast.
  destruct (older ++ recent)%list eqn:E.
  - apply (f_equal (@length turn)) in E. rewrite length_app in E.
    cbn in E. lia.
  - now rewrite Hlast.
Qed.

(** The requests of a chat answer when the probe succeeds: the probe, then
    one POST that carries the assembled prompt. *)
Lemma chat_sent_when_available
    (json_loads : string -> result json)
    (server : trace -> request -> http_outcome)
    (message : string) (context : option (list turn)) (tr : trace) :
  run (OllamaClient.is_available server OLLAMA_BASE_URL) tr = Ok true ->
  sent (generate_chat_response (the_ollama_client json_loads server)
          message context) tr
  = (tr ++ [probe_request;
            OllamaClient.generate_request OLLAMA_BASE_URL
              (full_prompt message context) DEFAULT_MODEL
              (Some chat_system_prompt)])%list.
Proof.
  intros Hprobe. apply is_available_run in Hprobe.
  unfold sent, generate_chat_response, the_ollama_client, OllamaClient.client, bind.
  cbn [is_available generate_response]. rewrite Hprobe. cbn [negb].
  destruct (generate_response_returns json_loads server OLLAMA_BASE_URL
              (full_prompt message context) DEFAULT_MODEL
              (Some chat_system_prompt) (tr ++ [probe_request])%list) as [v Hv].
  rewrite Hv. cbn. now rewrite <- app_assoc.
Qed.

(** C9. Given prior turns in chronological order of which [recent] are the
    last five, the prompt holds exactly those five, oldest first, each as
    [User: u] and [Assistant: m] on two lines, joined by newlines, then a
    blank line, then the new user message; this prompt is the one sent. *)
Theorem chat_prompt_last_five
    (json_loads : string -> result json)
    (server : trace -> request -> http_outcome)
    (message : string) (older recent : list turn) (tr : trace) :
  length recent = 5%nat ->
  full_prompt message (Some (older ++ recent)%list)
  = (join nl (map render_turn recent) ++ nl ++ nl)
      ++ "User: " ++ message ++ nl ++ "Assistant:"
  /\ (forall u m,
        render_turn [("message", Some u); ("response", Some m)]
        = "User: " ++ u ++ nl ++ "Assistant: " ++ m)
  /\ (run (OllamaClient.is_available server OLLAMA_BASE_URL) tr = Ok true ->
      sent (generate_chat_response (the_ollama_client json_loads server)
              message (Some (older ++ recent)%list)) tr
      = (tr ++ [probe_request;
                OllamaClient.generate_request OLLAMA_BASE_URL
                  ((join nl (map render_turn recent) ++ nl ++ nl)
                     ++ "User: " ++ message ++ nl ++ "Assistant:")
                  DEFAULT_MODEL (Some chat_system_prompt)])%list).
Proof.
  intros H.
  assert (full_prompt message (Some (older ++ recent)%list)
          = (join nl (map render_turn recent) ++ nl ++ nl)
              ++ "User: " ++ message ++ nl ++ "Assistant:") as Hp.
  { unfold full_prompt. now rewrite context_prompt_recent. }
  split; [exact Hp |]. split; [reflexivity |].
  intros Hprobe. rewrite <- Hp.
  now apply chat_sent_when_available.
Qed.

Lemma chat_prompt_last_five_witness :
  full_prompt "q8" (Some seven_turns)
  = "User: q3" ++ nl ++ "Assistant: a3" ++ nl
      ++ "User: q4" ++ nl ++ "Assistant: a4" ++ nl
      ++ "User: q5" ++ nl ++ "Assistant: a5" ++ nl
      ++ "User: q6" ++ nl ++ "Assistant: a6" ++ nl
      ++ "User: q7" ++ nl ++ "Assistant: a7" ++ nl ++ nl
      ++ "User: q8" ++ nl ++ "Assistant:".
Proof.
  destruct (chat_prompt_last_five JsonRef.loads (scripted []) "q8"
              (firstn 2 seven_turns) (skipn 2 seven_turns) [] eq_refl)
    as (H & _).
  exact H.
Defined.

(** ** The context that send_message prepares *)

Lemma insert_desc_oldest (r : chat_message) (rows : list chat_message) :
  Forall (fun x => (cm_timestamp r < cm_timestamp x)%Z) rows ->
  insert_desc r rows = (rows ++ [r])%list.
Proof.
  induction 1 as [| x rest Hx _ IH]; cbn.
  - reflexivity.
  - replace (cm_timestamp x <=? cm_timestamp r)%Z with false
      by (symmetry; apply Z.leb_gt; lia).
    now rewrite IH.
Qed.

(** On a chronological history the newest-first ordering is the reversal. *)
Lemma order_by_timestamp_desc_chronological (rows : list chat_message) :
  chronological rows -> order_by_timestamp_desc rows = rev rows.
Proof.
  unfold chronological, order_by_timestamp_desc.
  induction 1 as [| r rest _ IH Hr]; cbn [fold_right rev].
  - reflexivity.
  - rewrite IH. apply insert_desc_oldest. now apply Forall_rev.
Qed.

Lemma rev_firstn_rev {A} (n : nat) (l : list A) :
  rev (firstn n (rev l)) = last_n n l.
Proof. unfold last_n. now rewrite firstn_rev, rev_involutive. Qed.

Lemma send_message_context_chronological
    (chat_messages : list chat_message) (session_id user_id : string) :
  chronological (where_session chat_messages session_id user_id) ->
  send_message_context chat_messages session_id user_id
  = map turn_of_message
      (last_n 5 (where_session chat_messages session_id user_id)).
Proof.
  intros Hc. unfold send_message_context, select_context_rows.
  rewrite (order_by_timestamp_desc_chronological _ Hc).
  rewrite map_map, <- map_rev, rev_firstn_rev.
  reflexivity.
Qed.

Lemma context_prompt_in_order (context : list turn) :
  context <> [] ->
  (length context <= 5)%nat ->
  context_prompt (Some context)
  = join nl (map render_turn context) ++ nl ++ nl.
Proof.
  intros Hne Hlen. unfold context_prompt.
  destruct context as [| m ms]; [contradiction |].
  now rewrite last_n_short.
Qed.

Lemma length_last_n {A} (n : nat) (l : list A) :
  (length (last_n n l) <= n)%nat.
Proof. unfold last_n. rewrite length_skipn. lia. Qed.

(** C3, as the code has it.  [generate_chat_response] renders the turns in
    the order it receives them and reorders nothing.  The chronological
    order is restored by its caller: [send_message] reverses the
    newest-first rows of its query, so that for a history with strictly
    increasing timestamps the prompt holds the last five turns of the
    session, oldest first. *)
Theorem send_message_restores_order
    (chat_messages : list chat_message) (session_id user_id message : string) :
  chronological (where_session chat_messages session_id user_id) ->
  where_session chat_messages session_id user_id <> [] ->
  (forall context : list turn,
      context <> [] -> (length context <= 5)%nat ->
      full_prompt message (Some context)
      = (join nl (map render_turn context) ++ nl ++ nl)
          ++ "User: " ++ message ++ nl ++ "Assistant:")
  /\ send_message_context chat_messages session_id user_id
     = map turn_of_message
         (last_n 5 (where_session chat_messages session_id user_id))
  /\ full_prompt message
       (Some (send_message_context chat_messages session_id user_id))
     = (join nl
          (map render_turn
             (map turn_of_message
                (last_n 5 (where_session chat_messages session_id user_id))))
          ++ nl ++ nl)
         ++ "User: " ++ message ++ nl ++ "Assistant:".
Proof.
  intros Hc Hne.
  assert (forall context : list turn,
             context <> [] -> (length context <= 5)%nat ->
             full_prompt message (Some context)
             = (join nl (map render_turn context) ++ nl ++ nl)
                 ++ "User: " ++ message ++ nl ++ "Assistant:") as Hgiven.
  { intros context H1 H2. unfold full_prompt.
    now rewrite context_prompt_in_order. }
  split; [exact Hgiven |].
  pose proof (send_message_context_chronological _ _ _ Hc) as Hctx.
  split; [exact Hctx |].
  rewrite Hctx. apply Hgiven.
  - intros E. apply map_eq_nil in E. apply Hne.
    unfold last_n in E.
    destruct (where_session chat_messages session_id user_id) as [| r rest];
      [reflexivity |].
    exfalso.
    apply (f_equal (@length chat_message)) in E.
    rewrite length_skipn in E. cbn [length] in E. lia.
  - rewrite length_map. apply length_last_n.
Qed.

Lemma send_message_restores_order_witness :
  send_message_context seven_messages "s" "u" = skipn 2 seven_turns
  /\ full_prompt "q8" (Some (send_message_context seven_messages "s" "u"))
     = "User: q3" ++ nl ++ "Assistant: a3" ++ nl
         ++ "User: q4" ++ nl ++ "Assistant: a4" ++ nl
         ++ "User: q5" ++ nl ++ "Assistant: a5" ++ nl
         ++ "User: q6" ++ nl ++ "Assistant: a6" ++ nl
         ++ "User: q7" ++ nl ++ "Assistant: a7" ++ nl ++ nl
         ++ "User: q8" ++ nl ++ "Assistant:".
Proof.
  assert (chronological (where_session seven_messages "s" "u")) as Hc.
  { unfold chronological. cbn. repeat constructor. }
  assert (where_session seven_messages "s" "u" <> []) as Hne
    by (cbn; discriminate).
  destruct (send_message_restores_order seven_messages "s" "u" "q8" Hc Hne)
    as (_ & H1 & H2).
  split; [exact H1 | exact H2].
Defined.

(** C3, as stated, fails: handed two turns newest first,
    [generate_chat_response] puts the newer turn before the older one in
    the prompt it sends. *)
Lemma chat_keeps_given_order_counterexample :
  sent (generate_chat_response
          (the_ollama_client JsonRef.loads
             (scripted [answer 200 tags_body; answer 200 (response_body "ok")]))
          "q3" (Some [stored_turn "q2" "a2"; stored_turn "q1" "a1"])) []
  = [ probe_request;
      OllamaClient.generate_request OLLAMA_BASE_URL
        ("User: q2" ++ nl ++ "Assistant: a2" ++ nl
           ++ "User: q1" ++ nl ++ "Assistant: a1" ++ nl ++ nl
           ++ "User: q3" ++ nl ++ "Assistant:")
        DEFAULT_MODEL (Some chat_system_prompt) ]
  /\ String.eqb
       (full_prompt "q3" (Some [stored_turn "q2" "a2"; stored_turn "q1" "a1"]))
       (full_prompt "q3" (Some [stored_turn "q1" "a1"; stored_turn "q2" "a2"]))
     = false.
Proof. split; vm_compute; reflexivity. Qed.

(** ** The bracket search *)

Lemma match_dotstar_rbracket_last (s : string) :
  match_dotstar_rbracket s
  = option_map (fun j => substring 0 (S j) s) (last_index_of rbracket s).
Proof.
  induction s as [| c rest IH]; cbn [match_dotstar_rbracket last_index_of].
  - reflexivity.
  - rewrite IH. destruct (last_index_of rbracket rest) as [j |]; cbn.
    + reflexivity.
    + destruct (Ascii.eqb c rbracket); cbn; [| reflexivity].
      now destruct rest.
Qed.

Lemma re_search_brackets_no_rbracket (s : string) :
  last_index_of rbracket s = None -> re_search_brackets s = None.
Proof.
  induction s as [| c rest IH]; cbn [re_search_brackets last_index_of].
  - reflexivity.
  - destruct (last_index_of rbracket rest) as [j |] eqn:E; [discriminate |].
    intros _. rewrite match_dotstar_rbracket_last, E. cbn.
    rewrite IH by reflexivity. now destruct (Ascii.eqb c lbracket).
Qed.

Lemma bracket_span_no_rbracket (s : string) :
  last_index_of rbracket s = None -> bracket_span s = None.
Proof.
  intros E. unfold bracket_span. rewrite E.
  now destruct (index_of lbracket s).
Qed.

(** The regular-expression search returns the span from the first opening
    bracket to the last closing bracket. *)
Lemma re_search_brackets_span (s : string) :
  re_search_brackets s = bracket_span s.
Proof.
  induction s as [| c rest IH].
  - reflexivity.
  - cbn [re_search_brackets].
    destruct (Ascii.eqb c lbracket) eqn:Ec.
    + apply Ascii.eqb_eq in Ec. subst c.
      rewrite match_dotstar_rbracket_last.
      unfold bracket_span. cbn [index_of last_index_of].
      rewrite Ascii.eqb_refl.
      destruct (last_index_of rbracket rest) as [j |] eqn:El; cbn.
      * now rewrite Nat.add_1_r.
      * now apply re_search_brackets_no_rbracket.
    + rewrite IH. unfold bracket_span. cbn [index_of last_index_of].
      rewrite Ec.
      destruct (last_index_of rbracket rest) as [j |] eqn:El.
      * destruct (index_of lbracket rest) as [i |]; cbn; [| reflexivity].
        change (S i <? S j)%nat with (i <? j)%nat.
        destruct (i <? j)%nat; reflexivity.
      * destruct (index_of lbracket rest) as [i |]; cbn;
          destruct (Ascii.eqb c rbracket); reflexivity.
Qed.

(** ** generate_quiz_questions *)

Lemma extract_quiz_items_run (json_loads : string -> result json)
    (topic : string) (response : json) (tr : trace) :
  extract_quiz_items json_loads topic response tr
  = (Ok (extracted json_loads topic response), tr).
Proof.
  unfold extract_quiz_items, extracted, re_search, lift_result,
    try_except, bind, ret, raise.
  destruct response; try reflexivity.
  destruct (re_search_brackets s) as [group |]; [| reflexivity].
  now destruct (json_loads group).
Qed.

Lemma quiz_run_unavailable
    (json_loads : string -> result json)
    (server : trace -> request -> http_outcome)
    (topic difficulty : string) (num_questions : Z) (tr : trace) :
  run (OllamaClient.is_available server OLLAMA_BASE_URL) tr = Ok false ->
  generate_quiz_questions json_loads (the_ollama_client json_loads server)
    topic difficulty num_questions tr
  = (Ok (quiz_unavailable topic), (tr ++ [probe_request])%list).
Proof.
  intros Hprobe. apply is_available_run in Hprobe.
  unfold generate_quiz_questions, the_ollama_client, OllamaClient.client, bind.
  cbn [is_available]. now rewrite Hprobe.
Qed.

Lemma quiz_run_available
    (json_loads : string -> result json)
    (server : trace -> request -> http_outcome)
    (topic difficulty : string) (num_questions : Z) (tr : trace) (response : json) :
  run (OllamaClient.is_available server OLLAMA_BASE_URL) tr = Ok true ->
  run (OllamaClient.generate_response json_loads server OLLAMA_BASE_URL
         (quiz_prompt topic difficulty num_questions) DEFAULT_MODEL
         (Some (quiz_system_prompt topic difficulty num_questions)))
    (tr ++ [probe_request])%list = Ok response ->
  run (generate_quiz_questions json_loads (the_ollama_client json_loads server)
         topic difficulty num_questions) tr
  = Ok (extracted json_loads topic response).
Proof.
  intros Hprobe Hgen. apply is_available_run in Hprobe.
  unfold run in *.
  unfold generate_quiz_questions, the_ollama_client, OllamaClient.client, bind.
  cbn [is_available generate_response]. rewrite Hprobe. cbn [negb].
  destruct (OllamaClient.generate_response _ _ _ _ _ _ _) as [r tr'].
  cbn in Hgen. subst r. now rewrite extract_quiz_items_run.
Qed.

(** C2, as the code has it.  The parsing step validates no object: it
    returns whatever [json.loads] read from the bracketed span, unchanged,
    and leaves the state alone.  The one-item fallback is returned exactly
    when the answer is not a string, holds no bracketed span, or the span
    as a whole does not parse. *)
Theorem extract_quiz_items_unvalidated
    (json_loads : string -> result json) (topic : string)
    (response : json) (tr : trace) :
  extract_quiz_items json_loads topic response tr
  = (Ok (match response with
         | JStr s =>
             match bracket_span s with
             | Some group =>
                 match json_loads group with
                 | Ok questions_data => questions_data
                 | Raise _ => quiz_fallback topic
                 end
             | None => quiz_fallback topic
             end
         | _ => quiz_fallback topic
         end), tr).
Proof.
  rewrite extract_quiz_items_run. unfold extracted.
  destruct response; try reflexivity.
  now rewrite re_search_brackets_span.
Qed.

(** C2, as stated, fails: of two parsed objects the first has an empty
    question, one option and the label Z, yet the batch is returned whole
    instead of the fallback. *)
Lemma extract_quiz_items_keeps_invalid_counterexample :
  extract_quiz_items JsonRef.loads "Photosynthesis" (JStr mixed_quiz_text) []
  = (Ok mixed_quiz_items, [])
  /\ match mixed_quiz_items with
     | JArr items => forallb validated_item items
     | _ => true
     end = false
  /\ mixed_quiz_items <> quiz_fallback "Photosynthesis".
Proof.
  split; [vm_compute; reflexivity |].
  split; [vm_compute; reflexivity | discriminate].
Qed.

(** C1, as the code has it.  For every topic, difficulty and count
    [generate_quiz_questions] returns a value and never raises, and the
    value is fixed by what the server answered.  When the probe fails it is
    the one-item list of the unavailable case.  When the probe succeeds and
    the answer of the generation call is not a string, holds no bracketed
    span, or holds a span that [json.loads] refuses, it is the one-item
    fallback of the parser.  When [json.loads] accepts the span, it is
    exactly the value [json.loads] read, returned unchecked.  Both one-item
    lists have exactly 4 options and the label A pointing at the first. *)
Theorem quiz_fallback_or_parsed
    (json_loads : string -> result json)
    (server : trace -> request -> http_outcome)
    (topic difficulty : string) (num_questions : Z) (tr : trace) :
  run (generate_quiz_questions json_loads (the_ollama_client json_loads server)
         topic difficulty num_questions) tr
  = Ok (match server tr probe_request with
        | Responded resp =>
            if (status_code resp =? 200)%Z
            then
              match run (OllamaClient.generate_response json_loads server
                           OLLAMA_BASE_URL
                           (quiz_prompt topic difficulty num_questions)
                           DEFAULT_MODEL
                           (Some (quiz_system_prompt topic difficulty
                                    num_questions)))
                      (tr ++ [probe_request])%list with
              | Ok (JStr answer) =>
                  match bracket_span answer with
                  | Some group =>
                      match json_loads group with
                      | Ok questions_data => questions_data
                      | Raise _ => quiz_fallback topic
                      end
                  | None => quiz_fallback topic
                  end
              | _ => quiz_fallback topic
              end
            else quiz_unavailable topic
        | Failed _ => quiz_unavailable topic
        end)
  /\ well_formed_quiz (quiz_unavailable topic) = true
  /\ well_formed_quiz (quiz_fallback topic) = true.
Proof.
  split; [| split; reflexivity].
  pose proof (is_available_outcome server tr) as Hprobe.
  destruct (server tr probe_request) as [resp | e];
    [| unfold run at 1; now rewrite (quiz_run_unavailable _ _ _ _ _ _ Hprobe)].
  destruct (status_code resp =? 200)%Z;
    [| unfold run at 1; now rewrite (quiz_run_unavailable _ _ _ _ _ _ Hprobe)].
  destruct (generate_response_returns json_loads server OLLAMA_BASE_URL
              (quiz_prompt topic difficulty num_questions) DEFAULT_MODEL
              (Some (quiz_system_prompt topic difficulty num_questions))
              (tr ++ [probe_request])%list) as [response Hgen].
  assert (run (OllamaClient.generate_response json_loads server OLLAMA_BASE_URL
                 (quiz_prompt topic difficulty num_questions) DEFAULT_MODEL
                 (Some (quiz_system_prompt topic difficulty num_questions)))
            (tr ++ [probe_request])%list = Ok response)
    as Hrun by (unfold run; now rewrite Hgen).
  rewrite (quiz_run_available json_loads server topic difficulty num_questions
             tr response Hprobe Hrun), Hrun.
  unfold extracted. destruct response; try reflexivity.
  now rewrite re_search_brackets_span.
Qed.

(** C1, as stated, fails: the server is up and the model answers with an
    empty JSON array; the function returns the empty list. *)
Lemma quiz_empty_array_counterexample :
  run (generate_quiz_questions JsonRef.loads
         (the_ollama_client JsonRef.loads
            (scripted [answer 200 tags_body; answer 200 (response_body "[]")]))
         "Photosynthesis" "intermediate" 5) []
  = Ok (JArr [])
  /\ well_formed_quiz (JArr []) = false.
Proof. split; vm_compute; reflexivity. Qed.

(** C4, as the code has it.  When the probe fails,
    [generate_quiz_questions] returns at once a one-item list: the question
    is templated on the topic, there are 4 options and the label is A; the
    item has no explanation field.  Only the probe has been sent. *)
Theorem quiz_unavailable_item
    (json_loads : string -> result json)
    (server : trace -> request -> http_outcome)
    (topic difficulty : string) (num_questions : Z) (tr : trace) :
  run (OllamaClient.is_available server OLLAMA_BASE_URL) tr = Ok false ->
  generate_quiz_questions json_loads (the_ollama_client json_loads server)
    topic difficulty num_questions tr
  = (Ok (JArr [ JObj [ ("question", JStr ("Sample question about " ++ topic ++ "?"));
                       ("options", JArr [JStr "Option A"; JStr "Option B";
                                         JStr "Option C"; JStr "Option D"]);
                       ("correct", JStr "A") ] ]),
     (tr ++ [probe_request])%list)
  /\ generation_calls (tr ++ [probe_request])%list = generation_calls tr.
Proof.
  intros Hprobe. split.
  - now apply quiz_run_unavailable.
  - apply generation_calls_probe.
Qed.

Lemma quiz_unavailable_item_witness :
  generate_quiz_questions JsonRef.loads
    (the_ollama_client JsonRef.loads (scripted [answer 503 "down"]))
    "Photosynthesis" "intermediate" 5 []
  = (Ok (JArr [ JObj [ ("question", JStr "Sample question about Photosynthesis?");
                       ("options", JArr [JStr "Option A"; JStr "Option B";
                                         JStr "Option C"; JStr "Option D"]);
                       ("correct", JStr "A") ] ]),
     [probe_request])
  /\ generation_calls [probe_request] = [].
Proof.
  apply (quiz_unavailable_item JsonRef.loads (scripted [answer 503 "down"])
           "Photosynthesis" "intermediate" 5 []).
  reflexivity.
Defined.

(** C4, as stated, fails: the item returned when the server is unavailable
    has no explanation field, while the item of the parser's fallback has
    one. *)
Lemma quiz_unavailable_no_explanation_counterexample :
  run (generate_quiz_questions JsonRef.loads
         (the_ollama_client JsonRef.loads (scripted []))
         "Photosynthesis" "intermediate" 5) []
  = Ok (quiz_unavailable "Photosynthesis")
  /\ match quiz_unavailable "Photosynthesis" with
     | JArr items => existsb (has_key "explanation") items
     | _ => false
     end = false
  /\ match quiz_fallback "Photosynthesis" with
     | JArr items => forallb (has_key "explanation") items
     | _ => false
     end = true.
Proof. repeat split; vm_compute; reflexivity. Qed.

(** C8. The search takes the span of the raw text from its first opening
    bracket to its last closing bracket, newlines included; when
    [json.loads] accepts that span, the value it read is returned with
    nothing changed.  For the scenario text wrapped in prose the result is
    the one item whose correct label is B. *)
Theorem extract_quiz_items_bracket_span
    (json_loads : string -> result json) (topic text : string) (tr : trace) :
  re_search_brackets text = bracket_span text
  /\ (forall group v,
        bracket_span text = Some group ->
        json_loads group = Ok v ->
        extract_quiz_items json_loads topic (JStr text) tr = (Ok v, tr))
  /\ extract_quiz_items JsonRef.loads topic (JStr wrapped_quiz_text) tr
     = (Ok (JArr [ JObj [ ("question", JStr "Q1?");
                          ("options", JArr [JStr "A"; JStr "B"; JStr "C"; JStr "D"]);
                          ("correct", JStr "B") ] ]), tr).
Proof.
  split; [apply re_search_brackets_span |].
  split.
  - intros group v Hspan Hloads.
    rewrite extract_quiz_items_run. unfold extracted.
    now rewrite re_search_brackets_span, Hspan, Hloads.
  - rewrite extract_quiz_items_run. vm_compute. reflexivity.
Qed.

Lemma extract_quiz_items_bracket_span_witness :
  extract_quiz_items JsonRef.loads "Photosynthesis"
    (JStr ("Here:" ++ nl ++ "[1," ++ nl ++ "[2]," ++ nl ++ "3]" ++ nl ++ "Bye.")) []
  = (Ok (JArr [JInt 1; JArr [JInt 2]; JInt 3]), []).
Proof.
  destruct (extract_quiz_items_bracket_span JsonRef.loads "Photosynthesis"
              ("Here:" ++ nl ++ "[1," ++ nl ++ "[2]," ++ nl ++ "3]" ++ nl ++ "Bye.") [])
    as (_ & H & _).
  apply (H ("[1," ++ nl ++ "[2]," ++ nl ++ "3]")); vm_compute; reflexivity.
Defined.

(** ** Dictionaries *)

Section DictFacts.
Context {V : Type}.
Implicit Types (d : dict V) (k : string) (v : V).

Lemma dict_lookup_set_same k v d : dict_lookup k (dict_set k v d) = Some v.
Proof.
  induction d as [| [k' v'] rest IH]; cbn.
  - now rewrite String.eqb_refl.
  - destruct (String.eqb k k') eqn:E; cbn; rewrite E; [reflexivity | exact IH].
Qed.

Lemma dict_lookup_set_other k k' v d :
  k <> k' -> dict_lookup k (dict_set k' v d) = dict_lookup k d.
Proof.
  intros Hne. induction d as [| [k0 v0] rest IH]; cbn.
  - apply String.eqb_neq in Hne. now rewrite Hne.
  - destruct (String.eqb k' k0) eqn:E; cbn.
    + apply String.eqb_eq in E. subst k0.
      apply String.eqb_neq in Hne. now rewrite Hne.
    + now rewrite IH.
Qed.

Lemma dict_keys_set_new k v d :
  ~ In k (dict_keys d) -> dict_keys (dict_set k v d) = (dict_keys d ++ [k])%list.
Proof.
  unfold dict_keys. induction d as [| [k' v'] rest IH]; cbn; intros Hn.
  - reflexivity.
  - destruct (String.eqb k k') eqn:E.
    + apply String.eqb_eq in E. subst k'. exfalso. apply Hn. now left.
    + cbn. rewrite IH; [reflexivity |]. intros Hin. apply Hn. now right.
Qed.
End DictFacts.

(** ** generate_pdf_content *)

Section Sections.
Variable ollama_client : Client.

Let generate (prompt : string) : M json :=
  generate_response ollama_client prompt DEFAULT_MODEL (Some pdf_system_prompt).

(** One turn of the loop: the section gets its content or its
    placeholder, and the loop goes on from the state the call left. *)
Lemma generate_sections_step section prompt rest sections tr :
  generate_sections ollama_client ((section, prompt) :: rest) sections tr
  = generate_sections ollama_client rest
      (dict_set section (section_value section (run (generate prompt) tr)) sections)
      (sent (generate prompt) tr).
Proof.
  subst generate. cbn [generate_sections]. unfold bind, try_except, ret, run, sent.
  destruct (generate_response ollama_client prompt DEFAULT_MODEL
              (Some pdf_system_prompt) tr) as [[content | e] tr']; reflexivity.
Qed.

(** The loop never raises, whatever the calls do. *)
Lemma generate_sections_returns items sections tr :
  exists result,
    run (generate_sections ollama_client items sections) tr = Ok result.
Proof.
  revert sections tr.
  induction items as [| [section prompt] rest IH]; intros sections tr.
  - now exists sections.
  - unfold run. rewrite generate_sections_step. apply IH.
Qed.

Lemma generate_sections_keys items sections tr result :
  NoDup (dict_keys sections ++ map fst items) ->
  run (generate_sections ollama_client items sections) tr = Ok result ->
  dict_keys result = (dict_keys sections ++ map fst items)%list.
Proof.
  revert sections tr.
  induction items as [| [section prompt] rest IH]; intros sections tr Hnd Hrun.
  - cbn in Hrun. injection Hrun as <-. cbn. now rewrite app_nil_r.
  - unfold run in Hrun. rewrite generate_sections_step in Hrun.
    cbn [map fst] in *.
    assert (~ In section (dict_keys sections)) as Hnew.
    { intros Hin. apply NoDup_remove_2 in Hnd. apply Hnd.
      apply in_or_app. now left. }
    apply IH in Hrun.
    + rewrite Hrun, dict_keys_set_new by exact Hnew.
      now rewrite <- app_assoc.
    + rewrite dict_keys_set_new by exact Hnew.
      now rewrite <- app_assoc.
Qed.

Lemma generate_sections_keeps items section sections tr result :
  ~ In section (map fst items) ->
  run (generate_sections ollama_client items sections) tr = Ok result ->
  dict_lookup section result = dict_lookup section sections.
Proof.
  revert sections tr.
  induction items as [| [k prompt] rest IH]; intros sections tr Hn Hrun.
  - cbn in Hrun. now injection Hrun as <-.
  - unfold run in Hrun. rewrite generate_sections_step in Hrun.
    cbn [map fst] in Hn.
    apply IH in Hrun; [| intros Hin; apply Hn; now right].
    rewrite Hrun. apply dict_lookup_set_other.
    intros ->. apply Hn. now left.
Qed.

(** Each section holds what its own call gave, made in the state the
    sections before it left behind. *)
Lemma generate_sections_lookup before section prompt after sections tr result :
  ~ In section (map fst after) ->
  run (generate_sections ollama_client
         (before ++ (section, prompt) :: after) sections) tr = Ok result ->
  dict_lookup section result
  = Some (section_value section
            (run (generate prompt)
               (sent (generate_sections ollama_client before sections) tr))).
Proof.
  revert sections tr.
  induction before as [| [k p] before IH]; intros sections tr Hn Hrun.
  - cbn [app] in Hrun. unfold run in Hrun.
    rewrite generate_sections_step in Hrun.
    rewrite (generate_sections_keeps _ _ _ _ _ Hn Hrun).
    apply dict_lookup_set_same.
  - cbn [app] in Hrun. unfold run in Hrun.
    rewrite generate_sections_step in Hrun.
    rewrite (IH _ _ Hn Hrun).
    unfold sent at 3. now rewrite generate_sections_step.
Qed.
End Sections.

Lemma section_prompts_keys (topic : string) :
  map fst (section_prompts topic) = section_keys.
Proof. reflexivity. Qed.

Lemma section_keys_NoDup : NoDup section_keys.
Proof.
  unfold section_keys.
  repeat (constructor; [cbn; intuition discriminate |]).
  constructor.
Qed.

Lemma generate_pdf_content_sections
    (ollama_client : Client) (topic : string) (tr : trace) (available : bool) :
  run (is_available ollama_client) tr = Ok available ->
  exists sections,
    run (generate_pdf_content ollama_client topic) tr = Ok sections
    /\ dict_keys sections = section_keys
    /\ (available = false -> sections = pdf_unavailable topic)
    /\ (available = true ->
        forall before section prompt after,
          section_prompts topic = (before ++ (section, prompt) :: after)%list ->
          dict_lookup section sections
          = Some (section_value section
                    (run (generate_response ollama_client prompt DEFAULT_MODEL
                            (Some pdf_system_prompt))
                       (sent (generate_sections ollama_client before [])
                          (sent (is_available ollama_client) tr))))).
Proof.
  intros Hprobe.
  assert (is_available ollama_client tr
          = (Ok available, sent (is_available ollama_client) tr)) as Hp.
  { rewrite (run_sent (is_available ollama_client) tr). now rewrite Hprobe. }
  destruct available.
  - destruct (generate_sections_returns ollama_client (section_prompts topic) []
                (sent (is_available ollama_client) tr)) as [sections Hs].
    assert (run (generate_pdf_content ollama_client topic) tr = Ok sections) as Hrun.
    { unfold run, generate_pdf_content, bind. rewrite Hp. exact Hs. }
    exists sections. split; [exact Hrun |]. split; [| split].
    + rewrite (generate_sections_keys ollama_client (section_prompts topic) []
                 (sent (is_available ollama_client) tr) sections);
        [reflexivity | | exact Hs].
      cbn [dict_keys map app]. rewrite section_prompts_keys.
      apply section_keys_NoDup.
    + discriminate.
    + intros _ before section prompt after Hsplit.
      rewrite Hsplit in Hs.
      rewrite (generate_sections_lookup ollama_client before section prompt after
                 [] (sent (is_available ollama_client) tr) sections);
        [reflexivity | | exact Hs].
      pose proof section_keys_NoDup as Hnd.
      rewrite <- (section_prompts_keys topic), Hsplit, map_app in Hnd.
      cbn [map fst] in Hnd. apply NoDup_remove_2 in Hnd.
      intros Hin. apply Hnd. apply in_or_app. now right.
  - exists (pdf_unavailable topic).
    split; [| split; [reflexivity | split; [reflexivity | discriminate]]].
    unfold run, generate_pdf_content, bind. now rewrite Hp.
Qed.

(** C5. Whatever the probe answers and whatever the five generation calls
    do, [generate_pdf_content] returns a mapping whose keys are exactly
    introduction, key_concepts, examples, practice_questions and summary,
    in this order.  A call that raises is caught where it is made: its
    section holds the fixed placeholder and every other section holds what
    its own call returned.  With the client of the application the probe
    always answers, so the mapping is returned for every server. *)
Theorem generate_pdf_content_five_sections (topic : string) (tr : trace) :
  (forall (ollama_client : Client) (available : bool),
      run (is_available ollama_client) tr = Ok available ->
      exists sections,
        run (generate_pdf_content ollama_client topic) tr = Ok sections
        /\ dict_keys sections
           = ["introduction"; "key_concepts"; "examples";
              "practice_questions"; "summary"]
        /\ (available = false -> sections = pdf_unavailable topic)
        /\ (available = true ->
            forall before section prompt after,
              section_prompts topic = (before ++ (section, prompt) :: after)%list ->
              dict_lookup section sections
              = Some (match run (generate_response ollama_client prompt
                                   DEFAULT_MODEL (Some pdf_system_prompt))
                              (sent (generate_sections ollama_client before [])
                                 (sent (is_available ollama_client) tr)) with
                      | Ok content => content
                      | Raise _ =>
                          JStr ("Content for " ++ section
                                  ++ " could not be generated at this time.")
                      end)))
  /\ (forall (json_loads : string -> result json)
             (server : trace -> request -> http_outcome),
        exists sections,
          run (generate_pdf_content (the_ollama_client json_loads server) topic) tr
          = Ok sections
          /\ dict_keys sections
             = ["introduction"; "key_concepts"; "examples";
                "practice_questions"; "summary"]).
Proof.
  split.
  - intros ollama_client available Hprobe.
    exact (generate_pdf_content_sections ollama_client topic tr available Hprobe).
  - intros json_loads server.
    destruct (is_available_returns server tr) as [b Hb].
    destruct (generate_pdf_content_sections (the_ollama_client json_loads server)
                topic tr b) as (sections & Hrun & Hkeys & _).
    + unfold run, the_ollama_client, OllamaClient.client. cbn [is_available].
      now rewrite Hb.
    + now exists sections.
Qed.

(** The scenario of a document on recursion whose examples call fails. *)
Lemma generate_pdf_content_five_sections_witness :
  run (generate_pdf_content
         (flaky_client (dict_get "examples" EmptyString (section_prompts "Recursion")))
         "Recursion") []
  = Ok [ ("introduction",
          JStr ("Generated: " ++ dict_get "introduction" EmptyString
                                   (section_prompts "Recursion")));
         ("key_concepts",
          JStr ("Generated: " ++ dict_get "key_concepts" EmptyString
                                   (section_prompts "Recursion")));
         ("examples",
          JStr "Content for examples could not be generated at this time.");
         ("practice_questions",
          JStr ("Generated: " ++ dict_get "practice_questions" EmptyString
                                   (section_prompts "Recursion")));
         ("summary",
          JStr ("Generated: " ++ dict_get "summary" EmptyString
                                   (section_prompts "Recursion"))) ]
  /\ dict_lookup "examples"
       (match run (generate_pdf_content
                     (flaky_client (dict_get "examples" EmptyString
                                      (section_prompts "Recursion")))
                     "Recursion") [] with
        | Ok sections => sections
        | Raise _ => []
        end)
     = Some (JStr "Content for examples could not be generated at this time.").
Proof.
  destruct (generate_pdf_content_five_sections "Recursion" []) as (H & _).
  destruct (H (flaky_client (dict_get "examples" EmptyString
                               (section_prompts "Recursion")))
              true eq_refl)
    as (sections & Hrun & _ & _ & Hsec).
  split; [vm_compute; reflexivity |].
  rewrite Hrun.
  rewrite (Hsec eq_refl (firstn 2 (section_prompts "Recursion")) "examples"
             (dict_get "examples" EmptyString (section_prompts "Recursion"))
             (skipn 3 (section_prompts "Recursion")) eq_refl).
  vm_compute. reflexivity.
Defined.

(** * Further properties of the client and the services *)

(** ** OllamaClient *)

(** X1. [is_available] never raises and sends exactly one GET to
    [/api/tags] with a 5 second timeout; it answers [True] exactly when the
    server responds with status 200, and [False] on every other status and
    on every transport failure. *)
Theorem is_available_true_iff_200
    (server : trace -> request -> http_outcome) (base_url : string) (tr : trace) :
  OllamaClient.is_available server base_url tr
  = (Ok (match server tr (mk_request GET (base_url ++ "/api/tags") None (Some 5%Z)) with
         | Responded resp => (status_code resp =? 200)%Z
         | Failed _ => false
         end),
     (tr ++ [mk_request GET (base_url ++ "/api/tags") None (Some 5%Z)])%list).
Proof.
  unfold_client. now destruct (server tr _).
Qed.

(** What [list_models] returns for an outcome of its request. *)
Lemma list_models_or_empty_run
    (json_loads : string -> result json)
    (server : trace -> request -> http_outcome) (base_url : string) (tr : trace) :
  OllamaClient.list_models json_loads server base_url tr
  = (Ok (match server tr (mk_request GET (base_url ++ "/api/tags") None None) with
         | Responded resp =>
             if (status_code resp =? 200)%Z
             then match json_loads (text resp) with
                  | Ok (JObj body) => dict_get "models" (JArr []) body
                  | _ => JArr []
                  end
             else JArr []
         | Failed _ => JArr []
         end),
     (tr ++ [mk_request GET (base_url ++ "/api/tags") None None])%list).
Proof.
  unfold OllamaClient.list_models. unfold_client.
  destruct (server tr _) as [resp | e]; [| reflexivity].
  destruct (status_code resp =? 200)%Z; [| reflexivity].
  destruct (json_loads (text resp)) as [body | e]; [| reflexivity].
  destruct body; reflexivity.
Qed.

(** X2. [list_models] never raises and sends exactly one GET to
    [/api/tags], without a timeout.  It returns the [models] entry of the
    body when the status is 200 and the body decodes to an object (the empty
    list when the entry is missing), and the empty list in every other
    case: another status, a transport failure, a body that does not decode,
    a body that is not an object. *)
Theorem list_models_or_empty
    (json_loads : string -> result json)
    (server : trace -> request -> http_outcome) (base_url : string) (tr : trace) :
  OllamaClient.list_models json_loads server base_url tr
  = (Ok (match server tr (mk_request GET (base_url ++ "/api/tags") None None) with
         | Responded resp =>
             if (status_code resp =? 200)%Z
             then match json_loads (text resp) with
                  | Ok (JObj body) =>
                      match dict_lookup "models" body with
                      | Some models => models
                      | None => JArr []
                      end
                  | _ => JArr []
                  end
             else JArr []
         | Failed _ => JArr []
         end),
     (tr ++ [mk_request GET (base_url ++ "/api/tags") None None])%list).
Proof.
  rewrite list_models_or_empty_run.
  destruct (server tr _) as [resp | e]; [| reflexivity].
  destruct (status_code resp =? 200)%Z; [| reflexivity].
  destruct (json_loads (text resp)) as [body | e]; [| reflexivity].
  destruct body; reflexivity.
Qed.

(** X3. A 200 answer whose body cannot be used is reported as a connection
    error, as text: when the body does not decode, the text carries the
    decoder's message; when it decodes to something that is not an object,
    the text says that the value has no attribute [get]. *)
Theorem generate_response_unusable_body
    (json_loads : string -> result json)
    (server : trace -> request -> http_outcome)
    (base_url prompt model : string) (system_prompt : option string)
    (tr : trace) (resp : response) :
  server tr (OllamaClient.generate_request base_url prompt model system_prompt)
  = Responded resp ->
  status_code resp = 200%Z ->
  (forall e,
      json_loads (text resp) = Raise e ->
      is_timeout e = false ->
      run (OllamaClient.generate_response json_loads server base_url
             prompt model system_prompt) tr
      = Ok (JStr ("Error connecting to Ollama: " ++ exn_msg e)))
  /\ (forall v,
        json_loads (text resp) = Ok v ->
        (forall body, v <> JObj body) ->
        run (OllamaClient.generate_response json_loads server base_url
               prompt model system_prompt) tr
        = Ok (JStr ("Error connecting to Ollama: '" ++ py_type_name v
                      ++ "' object has no attribute 'get'"))).
Proof.
  intros Hsrv Hs. unfold OllamaClient.generate_request in Hsrv. split.
  - intros e He Ht. unfold run. unfold_client.
    rewrite Hsrv, Hs. cbn. rewrite He. cbn. now rewrite Ht.
  - intros v Hv Hno. unfold run. unfold_client.
    rewrite Hsrv, Hs. cbn. rewrite Hv.
    destruct v; try reflexivity.
    now destruct (Hno members).
Qed.

Lemma generate_response_unusable_body_witness :
  run (OllamaClient.generate_response JsonRef.loads
         (scripted [answer 200 "<html>gateway</html>"])
         OLLAMA_BASE_URL "Hi" DEFAULT_MODEL None) []
  = Ok (JStr "Error connecting to Ollama: Expecting value")
  /\ run (OllamaClient.generate_response JsonRef.loads
            (scripted [answer 200 "[1, 2]"])
            OLLAMA_BASE_URL "Hi" DEFAULT_MODEL None) []
     = Ok (JStr "Error connecting to Ollama: 'list' object has no attribute 'get'").
Proof.
  split.
  - destruct (generate_response_unusable_body JsonRef.loads
                (scripted [answer 200 "<html>gateway</html>"])
                OLLAMA_BASE_URL "Hi" DEFAULT_MODEL None []
                (mk_response 200 "<html>gateway</html>") eq_refl eq_refl)
      as (H & _).
    apply (H (mk_exn JSONDecodeError "Expecting value")); reflexivity.
  - destruct (generate_response_unusable_body JsonRef.loads
                (scripted [answer 200 "[1, 2]"])
                OLLAMA_BASE_URL "Hi" DEFAULT_MODEL None []
                (mk_response 200 "[1, 2]") eq_refl eq_refl)
      as (_ & H).
    apply (H (JArr [JInt 1; JInt 2])); [reflexivity | discriminate].
Defined.

(** ** generate_chat_response *)

(** X5. [generate_chat_response] never raises.  When the probe succeeds
    its result is exactly the result of the one [generate_response] call on
    the assembled prompt, made after the probe: server errors and timeouts
    come back as their text, unchanged. *)
Theorem chat_returns_generation_verbatim
    (json_loads : string -> result json)
    (server : trace -> request -> http_outcome)
    (message : string) (context : option (list turn)) (tr : trace) :
  (exists v,
      run (generate_chat_response (the_ollama_client json_loads server)
             message context) tr = Ok v)
  /\ (run (OllamaClient.is_available server OLLAMA_BASE_URL) tr = Ok true ->
      generate_chat_response (the_ollama_client json_loads server)
        message context tr
      = OllamaClient.generate_response json_loads server OLLAMA_BASE_URL
          (full_prompt message context) DEFAULT_MODEL (Some chat_system_prompt)
          (tr ++ [probe_request])%list).
Proof.
  assert (forall b,
             run (OllamaClient.is_available server OLLAMA_BASE_URL) tr = Ok b ->
             generate_chat_response (the_ollama_client json_loads server)
               message context tr
             = if b
               then OllamaClient.generate_response json_loads server OLLAMA_BASE_URL
                      (full_prompt message context) DEFAULT_MODEL
                      (Some chat_system_prompt) (tr ++ [probe_request])%list
               else (Ok chat_unavailable, (tr ++ [probe_request])%list)) as Hcases.
  { intros b Hb. apply is_available_run in Hb.
    unfold generate_chat_response, the_ollama_client, OllamaClient.client, bind.
    cbn [is_available generate_response]. rewrite Hb. now destruct b. }
  split.
  - destruct (is_available_returns server tr) as [b Hb].
    assert (run (OllamaClient.is_available server OLLAMA_BASE_URL) tr = Ok b)
      as Hrun by (unfold run; now rewrite Hb).
    unfold run at 1. rewrite (Hcases b Hrun). destruct b.
    + destruct (generate_response_returns json_loads server OLLAMA_BASE_URL
                  (full_prompt message context) DEFAULT_MODEL
                  (Some chat_system_prompt) (tr ++ [probe_request])%list) as [v Hv].
      rewrite Hv. now exists v.
    + now exists chat_unavailable.
  - intros Hb. exact (Hcases true Hb).
Qed.

Lemma chat_returns_generation_verbatim_witness :
  generate_chat_response
    (the_ollama_client JsonRef.loads
       (scripted [answer 200 tags_body; answer 500 "model not loaded"]))
    "What is gravity?" None []
  = (Ok (JStr "Error: 500 - model not loaded"),
     [probe_request;
      OllamaClient.generate_request OLLAMA_BASE_URL
        ("User: What is gravity?" ++ nl ++ "Assistant:")
        DEFAULT_MODEL (Some chat_system_prompt)]).
Proof.
  destruct (chat_returns_generation_verbatim JsonRef.loads
              (scripted [answer 200 tags_body; answer 500 "model not loaded"])
              "What is gravity?" None []) as (_ & H).
  rewrite (H eq_refl). vm_compute. reflexivity.
Defined.


(** ** The bracket search, from the text's point of view *)

Lemma last_index_of_none_app (c : ascii) (a b : string) :
  last_index_of c a = None -> last_index_of c b = None ->
  last_index_of c (a ++ b) = None.
Proof.
  intros Ha Hb. induction a as [| x a IH]; cbn in *.
  - exact Hb.
  - destruct (last_index_of c a); [discriminate |].
    rewrite IH by reflexivity. exact Ha.
Qed.

Lemma last_index_of_none_absent (c : ascii) (s : string) :
  last_index_of c s = None -> forall a b, s <> a ++ String c b.
Proof.
  induction s as [| x s IH]; intros Hs a b E.
  - destruct a; discriminate.
  - cbn in Hs. destruct (last_index_of c s) eqn:El; [discriminate |].
    destruct a as [| y a]; cbn in E; injection E as -> ->.
    + now rewrite Ascii.eqb_refl in Hs.
    + now apply (IH eq_refl a b).
Qed.

Lemma match_dotstar_rbracket_some (s m : string) :
  match_dotstar_rbracket s = Some m ->
  exists inner after,
    m = inner ++ String rbracket EmptyString
    /\ s = m ++ after
    /\ last_index_of rbracket after = None.
Proof.
  revert m. induction s as [| c rest IH]; intros m Hm; [discriminate |].
  cbn in Hm. destruct (match_dotstar_rbracket rest) as [m' |] eqn:Er.
  - injection Hm as <-.
    destruct (IH m' eq_refl) as (inner & after & -> & Hrest & Hafter).
    exists (String c inner), after. cbn. now rewrite <- Hrest.
  - destruct (Ascii.eqb c rbracket) eqn:Ec; [| discriminate].
    injection Hm as <-. apply Ascii.eqb_eq in Ec. subst c.
    exists EmptyString, rest. repeat split.
    rewrite match_dotstar_rbracket_last in Er.
    now destruct (last_index_of rbracket rest).
Qed.

Lemma match_dotstar_rbracket_none (s : string) :
  match_dotstar_rbracket s = None -> last_index_of rbracket s = None.
Proof.
  rewrite match_dotstar_rbracket_last.
  now destruct (last_index_of rbracket s).
Qed.

(** X7. What the search finds is a piece of the text: the text is
    [before ++ group ++ after], the group opens with a bracket and closes
    with one, no opening bracket comes before it and no closing bracket
    after it.  The search finds nothing exactly when the text holds no
    opening bracket that is followed, anywhere later, by a closing one. *)
Theorem re_search_brackets_decomposes (s : string) :
  match re_search_brackets s with
  | Some group =>
      exists before inner after,
        s = before ++ group ++ after
        /\ group = String lbracket (inner ++ String rbracket EmptyString)
        /\ index_of lbracket before = None
        /\ last_index_of rbracket after = None
  | None =>
      forall a b c, s <> a ++ String lbracket (b ++ String rbracket c)
  end.
Proof.
  induction s as [| x rest IH]; cbn [re_search_brackets].
  - intros a b c E. destruct a; discriminate.
  - destruct (Ascii.eqb x lbracket) eqn:Ex.
    + apply Ascii.eqb_eq in Ex. subst x.
      destruct (match_dotstar_rbracket rest) as [m |] eqn:Em.
      * destruct (match_dotstar_rbracket_some rest m Em)
          as (inner & after & -> & Hrest & Hafter).
        exists EmptyString, inner, after. cbn. now rewrite <- Hrest.
      * apply match_dotstar_rbracket_none in Em.
        rewrite (re_search_brackets_no_rbracket rest Em).
        intros a b c E.
        destruct a as [| y a]; cbn in E.
        -- injection E as Hrest.
           exact (last_index_of_none_absent rbracket rest Em b c Hrest).
        -- injection E as Hy Hrest.
           apply (last_index_of_none_absent rbracket rest Em
                    (a ++ String lbracket b) c).
           rewrite Hrest. clear. induction a; cbn; congruence.
    + destruct (re_search_brackets rest) as [group |].
      * destruct IH as (before & inner & after & -> & Hg & Hb & Ha).
        exists (String x before), inner, after. cbn. rewrite Ex, Hb.
        repeat split; assumption.
      * intros a b c E.
        destruct a as [| y a]; cbn in E; injection E as Hy Hrest.
        -- subst x. now rewrite Ascii.eqb_refl in Ex.
        -- exact (IH a b c Hrest).
Qed.

(** ** generate_quiz_questions when the generation fails *)

Lemma string_of_uint_no_rbracket (d : Decimal.uint) :
  last_index_of rbracket (NilEmpty.string_of_uint d) = None.
Proof. induction d; cbn; try rewrite IHd; reflexivity. Qed.

Lemma str_of_Z_no_rbracket (z : Z) :
  last_index_of rbracket (str_of_Z z) = None.
Proof.
  unfold str_of_Z, NilZero.string_of_int.
  destruct (Z.to_int z) as [d | d]; cbn [last_index_of];
    unfold NilZero.string_of_uint;
    destruct d; try reflexivity;
    try (rewrite (string_of_uint_no_rbracket (_ d)); reflexivity).
Qed.

Lemma extracted_no_rbracket (json_loads : string -> result json)
    (topic s : string) :
  last_index_of rbracket s = None ->
  extracted json_loads topic (JStr s) = quiz_fallback topic.
Proof.
  intros H. unfold extracted. now rewrite re_search_brackets_no_rbracket.
Qed.

(** X8. When the probe succeeds and the generation request fails in the
    transport, [generate_quiz_questions] returns the one-item fallback about
    the topic: always on a timeout, and on any other failure whose message
    holds no closing bracket. *)
Theorem quiz_transport_failure_falls_back
    (json_loads : string -> result json)
    (server : trace -> request -> http_outcome)
    (topic difficulty : string) (num_questions : Z) (tr : trace) (e : exn) :
  run (OllamaClient.is_available server OLLAMA_BASE_URL) tr = Ok true ->
  server (tr ++ [probe_request])%list (quiz_request topic difficulty num_questions)
  = Failed e ->
  is_timeout e = true \/ last_index_of rbracket (exn_msg e) = None ->
  run (generate_quiz_questions json_loads (the_ollama_client json_loads server)
         topic difficulty num_questions) tr
  = Ok (quiz_fallback topic).
Proof.
  intros Hprobe Hsrv Hcase.
  rewrite (quiz_run_available json_loads server topic difficulty num_questions tr
             (JStr (if is_timeout e
                    then "Request timed out. The model might be processing a complex query."
                    else "Error connecting to Ollama: " ++ exn_msg e)) Hprobe).
  - f_equal. apply extracted_no_rbracket.
    destruct (is_timeout e); [reflexivity |].
    destruct Hcase as [Ht | Hmsg]; [discriminate |].
    now apply last_index_of_none_app.
  - now apply generate_response_failed.
Qed.

Lemma quiz_transport_failure_falls_back_witness :
  run (generate_quiz_questions JsonRef.loads
         (the_ollama_client JsonRef.loads
            (scripted [answer 200 tags_body; Failed read_timeout]))
         "Photosynthesis" "intermediate" 5) []
  = Ok (quiz_fallback "Photosynthesis")
  /\ run (generate_quiz_questions JsonRef.loads
            (the_ollama_client JsonRef.loads (scripted [answer 200 tags_body]))
            "Photosynthesis" "intermediate" 5) []
     = Ok (quiz_fallback "Photosynthesis").
Proof.
  split.
  - apply (quiz_transport_failure_falls_back JsonRef.loads
             (scripted [answer 200 tags_body; Failed read_timeout])
             "Photosynthesis" "intermediate" 5 [] read_timeout);
      [reflexivity | reflexivity | left; reflexivity].
  - apply (quiz_transport_failure_falls_back JsonRef.loads
             (scripted [answer 200 tags_body])
             "Photosynthesis" "intermediate" 5 [] connection_refused);
      [reflexivity | reflexivity | right; reflexivity].
Defined.

(** X9. When the probe succeeds and the server answers the generation
    request with a status other than 200, the quiz is read from the error
    text [Error: <status> - <body>]: a body without a closing bracket gives
    the one-item fallback about the topic, while a body that holds a
    bracketed span is handed to [json.loads] like a model answer. *)
Theorem quiz_server_error_reads_error_text
    (json_loads : string -> result json)
    (server : trace -> request -> http_outcome)
    (topic difficulty : string) (num_questions : Z) (tr : trace)
    (resp : response) :
  run (OllamaClient.is_available server OLLAMA_BASE_URL) tr = Ok true ->
  server (tr ++ [probe_request])%list (quiz_request topic difficulty num_questions)
  = Responded resp ->
  status_code resp <> 200%Z ->
  run (generate_quiz_questions json_loads (the_ollama_client json_loads server)
         topic difficulty num_questions) tr
  = Ok (match bracket_span ("Error: " ++ str_of_Z (status_code resp)
                              ++ " - " ++ text resp) with
        | Some group =>
            match json_loads group with
            | Ok questions_data => questions_data
            | Raise _ => quiz_fallback topic
            end
        | None => quiz_fallback topic
        end)
  /\ (last_index_of rbracket (text resp) = None ->
      run (generate_quiz_questions json_loads (the_ollama_client json_loads server)
             topic difficulty num_questions) tr
      = Ok (quiz_fallback topic)).
Proof.
  intros Hprobe Hsrv Hs.
  pose proof (quiz_run_available json_loads server topic difficulty num_questions tr
                (JStr ("Error: " ++ str_of_Z (status_code resp)
                         ++ " - " ++ text resp)) Hprobe
                (generate_response_not_200 json_loads server OLLAMA_BASE_URL
                   _ _ _ _ resp Hsrv Hs)) as Hrun.
  split.
  - rewrite Hrun. unfold extracted. now rewrite re_search_brackets_span.
  - intros Hbody. rewrite Hrun. f_equal. apply extracted_no_rbracket.
    apply (last_index_of_none_app rbracket "Error: "); [reflexivity |].
    apply last_index_of_none_app; [apply str_of_Z_no_rbracket |].
    apply (last_index_of_none_app rbracket " - "); [reflexivity | exact Hbody].
Qed.

Lemma quiz_server_error_reads_error_text_witness :
  run (generate_quiz_questions JsonRef.loads
         (the_ollama_client JsonRef.loads
            (scripted [answer 200 tags_body; answer 500 "Internal Server Error"]))
         "Photosynthesis" "intermediate" 5) []
  = Ok (quiz_fallback "Photosynthesis")
  /\ run (generate_quiz_questions JsonRef.loads
            (the_ollama_client JsonRef.loads
               (scripted [answer 200 tags_body; answer 404 "[]"]))
            "Photosynthesis" "intermediate" 5) []
     = Ok (JArr []).
Proof.
  split.
  - destruct (quiz_server_error_reads_error_text JsonRef.loads
                (scripted [answer 200 tags_body; answer 500 "Internal Server Error"])
                "Photosynthesis" "intermediate" 5 []
                (mk_response 500 "Internal Server Error") eq_refl eq_refl)
      as (_ & H); [discriminate |].
    apply H. reflexivity.
  - destruct (quiz_server_error_reads_error_text JsonRef.loads
                (scripted [answer 200 tags_body; answer 404 "[]"])
                "Photosynthesis" "intermediate" 5 []
                (mk_response 404 "[]") eq_refl eq_refl)
      as (H & _); [discriminate |].
    rewrite H. vm_compute. reflexivity.
Defined.

(** X10. [generate_quiz_questions] sends the probe and, only when the
    probe succeeded, one generation request: it never retries and never
    asks twice. *)
Theorem quiz_sends_at_most_one_generation
    (json_loads : string -> result json)
    (server : trace -> request -> http_outcome)
    (topic difficulty : string) (num_questions : Z) (tr : trace) :
  sent (generate_quiz_questions json_loads (the_ollama_client json_loads server)
          topic difficulty num_questions) tr
  = (tr ++ probe_request
        :: match server tr probe_request with
           | Responded resp =>
               if (status_code resp =? 200)%Z
               then [quiz_request topic difficulty num_questions]
               else []
           | Failed _ => []
           end)%list.
Proof.
  pose proof (is_available_outcome server tr) as Hout.
  destruct (server tr probe_request) as [resp | e] eqn:Hsrv.
  - destruct (status_code resp =? 200)%Z eqn:Hs.
    + apply is_available_run in Hout.
      unfold sent, generate_quiz_questions, the_ollama_client,
        OllamaClient.client, bind.
      cbn [is_available generate_response]. rewrite Hout. cbn [negb].
      destruct (generate_response_returns json_loads server OLLAMA_BASE_URL
                  (quiz_prompt topic difficulty num_questions) DEFAULT_MODEL
                  (Some (quiz_system_prompt topic difficulty num_questions))
                  (tr ++ [probe_request])%list) as [v Hv].
      rewrite Hv, extract_quiz_items_run. cbn [snd].
      now rewrite <- app_assoc.
    + unfold sent. now rewrite (quiz_run_unavailable _ _ _ _ _ _ Hout).
  - unfold sent. now rewrite (quiz_run_unavailable _ _ _ _ _ _ Hout).
Qed.

(** ** generate_pdf_content with the client of the application *)

Lemma generate_response_sent
    (json_loads : string -> result json)
    (server : trace -> request -> http_outcome)
    (prompt model : string) (system_prompt : option string) (tr : trace) :
  sent (OllamaClient.generate_response json_loads server OLLAMA_BASE_URL
          prompt model system_prompt) tr
  = (tr ++ [OllamaClient.generate_request OLLAMA_BASE_URL prompt model
              system_prompt])%list.
Proof.
  destruct (generate_response_returns json_loads server OLLAMA_BASE_URL
              prompt model system_prompt tr) as [v Hv].
  unfold sent. now rewrite Hv.
Qed.

Lemma generate_sections_sent
    (json_loads : string -> result json)
    (server : trace -> request -> http_outcome)
    (items : list (string * string)) (sections : dict json) (tr : trace) :
  sent (generate_sections (the_ollama_client json_loads server) items sections) tr
  = (tr ++ map (fun kp => section_request (snd kp)) items)%list.
Proof.
  revert sections tr.
  induction items as [| [section prompt] rest IH]; intros sections tr.
  - cbn. now rewrite app_nil_r.
  - unfold sent in IH |- *. rewrite generate_sections_step, IH.
    unfold the_ollama_client, OllamaClient.client. cbn [generate_response].
    rewrite generate_response_sent. cbn [map snd].
    now rewrite <- app_assoc.
Qed.

(** X11. With the client of the application and a successful probe,
    [generate_pdf_content] sends the probe and then exactly five generation
    requests, one per section in the fixed order, and each section holds
    what its own request returned: a section whose request timed out or
    was refused holds that error text, and the placeholder of the [except]
    branch is never used. *)
Theorem pdf_sections_from_five_requests
    (json_loads : string -> result json)
    (server : trace -> request -> http_outcome)
    (topic : string) (tr : trace) :
  run (OllamaClient.is_available server OLLAMA_BASE_URL) tr = Ok true ->
  exists sections,
    generate_pdf_content (the_ollama_client json_loads server) topic tr
    = (Ok sections,
       (tr ++ probe_request
           :: map (fun kp => section_request (snd kp)) (section_prompts topic))%list)
    /\ forall before section prompt after,
         section_prompts topic = (before ++ (section, prompt) :: after)%list ->
         exists content,
           run (OllamaClient.generate_response json_loads server OLLAMA_BASE_URL
                  prompt DEFAULT_MODEL (Some pdf_system_prompt))
             (tr ++ probe_request
                 :: map (fun kp => section_request (snd kp)) before)%list
           = Ok content
           /\ dict_lookup section sections = Some content.
Proof.
  intros Hprobe.
  assert (run (is_available (the_ollama_client json_loads server)) tr = Ok true)
    as Hprobe' by exact Hprobe.
  destruct (generate_pdf_content_sections (the_ollama_client json_loads server)
              topic tr true Hprobe') as (sections & Hrun & _ & _ & Hsec).
  assert (sent (is_available (the_ollama_client json_loads server)) tr
          = (tr ++ [probe_request])%list) as Hsent
    by apply is_available_sent.
  exists sections. split.
  - rewrite (run_sent (generate_pdf_content _ topic) tr), Hrun. f_equal.
    assert (is_available (the_ollama_client json_loads server) tr
            = (Ok true, (tr ++ [probe_request])%list)) as Hp
      by exact (is_available_run server tr true Hprobe).
    pose proof (generate_sections_sent json_loads server (section_prompts topic)
                  [] (tr ++ [probe_request])%list) as Hs.
    unfold sent in Hs |- *. unfold generate_pdf_content, bind.
    rewrite Hp. cbn [negb]. rewrite Hs. now rewrite <- app_assoc.
  - intros before section prompt after Hsplit.
    specialize (Hsec eq_refl before section prompt after Hsplit).
    rewrite Hsent, generate_sections_sent in Hsec.
    rewrite <- app_assoc in Hsec. cbn [app] in Hsec.
    destruct (generate_response_returns json_loads server OLLAMA_BASE_URL
                prompt DEFAULT_MODEL (Some pdf_system_prompt)
                (tr ++ probe_request
                    :: map (fun kp => section_request (snd kp)) before)%list)
      as [content Hc].
    exists content.
    assert (run (OllamaClient.generate_response json_loads server OLLAMA_BASE_URL
                   prompt DEFAULT_MODEL (Some pdf_system_prompt))
              (tr ++ probe_request
                  :: map (fun kp => section_request (snd kp)) before)%list
            = Ok content) as Hr by (unfold run; now rewrite Hc).
    split; [exact Hr |].
    rewrite Hsec.
    unfold the_ollama_client, OllamaClient.client. cbn [generate_response].
    now rewrite Hr.
Qed.

Lemma pdf_sections_from_five_requests_witness :
  run (generate_pdf_content
         (the_ollama_client JsonRef.loads
            (scripted [answer 200 tags_body;
                       answer 200 (response_body "Intro text");
                       answer 200 (response_body "Concepts text");
                       Failed read_timeout;
                       answer 200 (response_body "Questions text");
                       answer 200 (response_body "Summary text")]))
         "Recursion") []
  = Ok [ ("introduction", JStr "Intro text");
         ("key_concepts", JStr "Concepts text");
         ("examples",
          JStr "Request timed out. The model might be processing a complex query.");
         ("practice_questions", JStr "Questions text");
         ("summary", JStr "Summary text") ].
Proof.
  destruct (pdf_sections_from_five_requests JsonRef.loads
              (scripted [answer 200 tags_body;
                         answer 200 (response_body "Intro text");
                         answer 200 (response_body "Concepts text");
                         Failed read_timeout;
                         answer 200 (response_body "Questions text");
                         answer 200 (response_body "Summary text")])
              "Recursion" [] eq_refl) as (sections & Hrun & _).
  unfold run. rewrite Hrun. cbn [fst].
  apply (f_equal fst) in Hrun. cbn [fst] in Hrun. rewrite <- Hrun.
  vm_compute. reflexivity.
Defined.

(** ** The rows behind the chat context *)

Lemma insert_desc_perm (r : chat_message) (rows : list chat_message) :
  Permutation (r :: rows) (insert_desc r rows).
Proof.
  induction rows as [| x rest IH]; cbn.
  - apply Permutation_refl.
  - destruct (cm_timestamp x <=? cm_timestamp r)%Z.
    + apply Permutation_refl.
    + eapply perm_trans; [apply perm_swap |]. now apply perm_skip.
Qed.

Lemma order_by_timestamp_desc_perm (rows : list chat_message) :
  Permutation rows (order_by_timestamp_desc rows).
Proof.
  unfold order_by_timestamp_desc.
  induction rows as [| r rest IH]; cbn.
  - apply perm_nil.
  - eapply perm_trans; [| apply insert_desc_perm]. now apply perm_skip.
Qed.

Lemma insert_desc_sorted (r : chat_message) (rows : list chat_message) :
  StronglySorted newer_first rows ->
  StronglySorted newer_first (insert_desc r rows).
Proof.
  induction 1 as [| x rest Hs IH Hx]; cbn.
  - repeat constructor.
  - destruct (cm_timestamp x <=? cm_timestamp r)%Z eqn:E.
    + apply Z.leb_le in E. constructor; [now constructor |].
      constructor; [exact E |].
      eapply Forall_impl; [| exact Hx].
      unfold newer_first. intros; lia.
    + apply Z.leb_gt in E. constructor; [exact IH |].
      eapply Permutation_Forall; [apply insert_desc_perm |].
      constructor; [unfold newer_first; lia | exact Hx].
Qed.

Lemma order_by_timestamp_desc_sorted (rows : list chat_message) :
  StronglySorted newer_first (order_by_timestamp_desc rows).
Proof.
  unfold order_by_timestamp_desc.
  induction rows as [| r rest IH]; cbn.
  - constructor.
  - now apply insert_desc_sorted.
Qed.

Lemma StronglySorted_app_inv {A} (R : A -> A -> Prop) (l1 l2 : list A) :
  StronglySorted R (l1 ++ l2) ->
  StronglySorted R l1 /\ StronglySorted R l2
  /\ forall a b, In a l1 -> In b l2 -> R a b.
Proof.
  induction l1 as [| x l1 IH]; cbn; intros H.
  - repeat split; [constructor | exact H | contradiction].
  - apply StronglySorted_inv in H. destruct H as [Hs Hx].
    destruct (IH Hs) as (H1 & H2 & H12).
    apply Forall_app in Hx. destruct Hx as [Hx1 Hx2].
    repeat split.
    + now constructor.
    + exact H2.
    + intros a b [<- | Ha] Hb.
      * rewrite Forall_forall in Hx2. now apply Hx2.
      * now apply H12.
Qed.

Lemma StronglySorted_rev_flip {A} (R : A -> A -> Prop) (l : list A) :
  StronglySorted R l -> StronglySorted (fun a b => R b a) (rev l).
Proof.
  induction 1 as [| x l Hs IH Hx]; cbn.
  - constructor.
  - clear Hs. revert IH. generalize (rev l) (Forall_rev Hx).
    intros l' Hl'. induction 1 as [| y l'' Hs' IH' Hy]; cbn.
    + repeat constructor.
    + apply Forall_cons_iff in Hl'. destruct Hl' as [Hxy Hl''].
      constructor; [now apply IH' |].
      apply Forall_app. split; [exact Hy |]. now repeat constructor.
Qed.

(** X12. The context [send_message] passes on is made of the session's own
    rows only: the stored rows of this session and user split into the ones
    chosen and the ones left out; the chosen are at most five, they come in
    non-decreasing time, and no row left out is newer than a chosen one.
    This holds for every table, ties in the timestamps included. *)
Theorem send_message_context_newest_five
    (chat_messages : list chat_message) (session_id user_id : string) :
  exists chosen left_out,
    send_message_context chat_messages session_id user_id
    = map turn_of_message chosen
    /\ Permutation (where_session chat_messages session_id user_id)
         (chosen ++ left_out)
    /\ length chosen
       = Nat.min 5 (length (where_session chat_messages session_id user_id))
    /\ StronglySorted
         (fun a b => (cm_timestamp a <= cm_timestamp b)%Z) chosen
    /\ (forall a b, In a chosen -> In b left_out ->
                    (cm_timestamp b <= cm_timestamp a)%Z)
    /\ (forall a, In a chosen ->
                  In a chat_messages
                  /\ cm_session_id a = session_id /\ cm_user_id a = user_id).
Proof.
  set (rows := where_session chat_messages session_id user_id).
  set (sorted := order_by_timestamp_desc rows).
  pose proof (order_by_timestamp_desc_perm rows) as Hperm.
  pose proof (order_by_timestamp_desc_sorted rows) as Hsorted.
  fold sorted in Hperm, Hsorted.
  rewrite <- (firstn_skipn 5 sorted) in Hsorted.
  destruct (StronglySorted_app_inv _ _ _ Hsorted) as (Hfirst & _ & Hcross).
  exists (rev (firstn 5 sorted)), (skipn 5 sorted).
  split; [| split; [| split; [| split; [| split]]]].
  - unfold send_message_context, select_context_rows. fold rows. fold sorted.
    now rewrite map_map, <- map_rev.
  - eapply perm_trans; [exact Hperm |].
    rewrite <- (firstn_skipn 5 sorted) at 1.
    apply Permutation_app_tail, Permutation_rev.
  - rewrite length_rev, length_firstn.
    now rewrite (Permutation_length Hperm).
  - exact (StronglySorted_rev_flip _ _ Hfirst).
  - intros a b Ha Hb. apply in_rev in Ha. exact (Hcross a b Ha Hb).
  - intros a Ha. apply in_rev in Ha.
    assert (In a rows) as Hin.
    { eapply Permutation_in; [apply Permutation_sym; exact Hperm |].
      rewrite <- (firstn_skipn 5 sorted). apply in_or_app. now left. }
    subst rows. unfold where_session in Hin.
    apply filter_In in Hin. destruct Hin as [Hin Hcond].
    apply andb_true_iff in Hcond. destruct Hcond as [H1 H2].
    apply String.eqb_eq in H1, H2. auto.
Qed.

(** ** Titles and file names *)

Lemma length_append (a b : string) :
  String.length (a ++ b) = (String.length a + String.length b)%nat.
Proof. induction a; cbn; congruence. Qed.

Lemma length_substring_0 (n : nat) (s : string) :
  String.length (substring 0 n s) = Nat.min n (String.length s).
Proof.
  revert s. induction n as [| n IH]; intros s.
  - now destruct s.
  - destruct s; cbn; [reflexivity |]. now rewrite IH.
Qed.

Lemma substring_0_append (n : nat) (a b : string) :
  (n <= String.length a)%nat ->
  substring 0 n (a ++ b) = substring 0 n a.
Proof.
  revert a. induction n as [| n IH]; intros a H.
  - now destruct a; destruct b.
  - destruct a; cbn in *; [lia |]. rewrite IH by lia. reflexivity.
Qed.

Lemma substring_0_idem (n : nat) (s : string) :
  substring 0 n (substring 0 n s) = substring 0 n s.
Proof.
  revert s. induction n as [| n IH]; intros s.
  - now destruct s.
  - destruct s; cbn; [reflexivity |]. now rewrite IH.
Qed.

(** X13. The chat title made from the first message is never longer than
    53 characters and always starts with the first 50 characters of the
    message: a message of at most 50 characters is the title itself, a
    longer one is cut after 50 characters and gets three dots. *)
Theorem chat_title_bounded (message : string) :
  (String.length (chat_title message) <= 53)%nat
  /\ substring 0 50 (chat_title message) = substring 0 50 message
  /\ ((String.length message <= 50)%nat -> chat_title message = message)
  /\ ((50 < String.length message)%nat ->
      chat_title message = substring 0 50 message ++ "..."
      /\ String.length (chat_title message) = 53%nat).
Proof.
  unfold chat_title.
  destruct (50 <? String.length message)%nat eqn:E.
  - apply Nat.ltb_lt in E.
    assert (String.length (substring 0 50 message ++ "...") = 53%nat) as Hlen.
    { rewrite length_append, length_substring_0.
      rewrite Nat.min_l by lia. reflexivity. }
    repeat split.
    + lia.
    + rewrite substring_0_append; [apply substring_0_idem |].
      rewrite length_substring_0. lia.
    + intros; lia.
    + exact Hlen.
  - apply Nat.ltb_ge in E. repeat split; try lia; intros; lia.
Qed.

Lemma chat_title_bounded_witness :
  chat_title "Can you explain how photosynthesis turns light into sugar in detail?"
  = "Can you explain how photosynthesis turns light int..."
  /\ chat_title "What is gravity?" = "What is gravity?".
Proof.
  destruct (chat_title_bounded
              "Can you explain how photosynthesis turns light into sugar in detail?")
    as (_ & _ & _ & Hlong).
  destruct (chat_title_bounded "What is gravity?") as (_ & _ & Hshort & _).
  split.
  - destruct Hlong as [H _]; [cbn; lia |]. rewrite H. reflexivity.
  - apply Hshort. cbn. lia.
Defined.

Lemma replace_char_absent (old new : ascii) (s : string) :
  Ascii.eqb new old = false ->
  index_of old (replace_char old new s) = None.
Proof.
  intros Hne. induction s as [| c rest IH]; cbn.
  - reflexivity.
  - rewrite IH. destruct (Ascii.eqb c old) eqn:E; [now rewrite Hne | now rewrite E].
Qed.

Lemma index_of_none_app (c : ascii) (a b : string) :
  index_of c a = None -> index_of c b = None -> index_of c (a ++ b) = None.
Proof.
  intros Ha Hb. induction a as [| x a IH]; cbn in *.
  - exact Hb.
  - destruct (Ascii.eqb x c); [discriminate |].
    destruct (index_of c a); [discriminate |]. now rewrite IH.
Qed.

Lemma length_replace_char (old new : ascii) (s : string) :
  String.length (replace_char old new s) = String.length s.
Proof. induction s; cbn; congruence. Qed.

(** X14. The name under which the document is offered for download holds
    no space, whatever the topic, and is the topic with 19 characters
    added; a topic without spaces is kept as it is. *)
Theorem download_name_has_no_space (topic : string) :
  index_of " "%char (download_name topic) = None
  /\ String.length (download_name topic) = (String.length topic + 19)%nat
  /\ (index_of " "%char topic = None ->
      download_name topic = topic ++ "_study_material.pdf").
Proof.
  unfold download_name. repeat split.
  - apply index_of_none_app; [now apply replace_char_absent | reflexivity].
  - now rewrite length_append, length_replace_char.
  - intros H. f_equal. induction topic as [| c rest IH]; cbn in *.
    + reflexivity.
    + destruct (Ascii.eqb c " "%char); [discriminate |].
      destruct (index_of " "%char rest); [discriminate |].
      now rewrite IH.
Qed.

Lemma download_name_has_no_space_witness :
  download_name "Recursion" = "Recursion_study_material.pdf".
Proof.
  destruct (download_name_has_no_space "Recursion") as (_ & _ & H).
  apply H. reflexivity.
Defined.

(** ** The values start_quiz stores *)

Lemma questions_params_each (items : list json) (rows : list (list json)) :
  questions_params items = Ok rows ->
  Forall2 (fun item row => question_params item = Ok row) items rows.
Proof.
  revert rows. induction items as [| q rest IH]; intros rows H; cbn in H.
  - injection H as <-. constructor.
  - destruct (question_params q) as [row | e] eqn:Eq; [| discriminate].
    cbn in H. destruct (questions_params rest) as [rows' | e]; [| discriminate].
    cbn in H. injection H as <-. constructor; [exact Eq | now apply IH].
Qed.

Lemma question_params_storable (item : json) :
  storable item = true ->
  exists question a b c d correct,
    question_params item
    = Ok [question; a; b; c; d; correct;
          match item with
          | JObj m => dict_get "explanation" (JStr EmptyString) m
          | _ => JStr EmptyString
          end].
Proof.
  unfold storable, has_key, well_formed_item.
  destruct item as [| | | | | | m]; try discriminate.
  intros H. apply andb_true_iff in H. destruct H as [Hq Hw].
  unfold question_params. cbn [getitem_key get_or].
  destruct (dict_lookup "question" m) as [question |]; [| discriminate].
  destruct (dict_lookup "options" m) as [options |]; [| discriminate].
  destruct options as [| | | | | opts |]; try discriminate.
  destruct (dict_lookup "correct" m) as [correct |]; [| discriminate].
  apply andb_true_iff in Hw. destruct Hw as [Hlen _].
  apply Nat.eqb_eq in Hlen.
  destruct opts as [| a [| b [| c [| d [| x opts]]]]]; try discriminate.
  cbn. now exists question, a, b, c, d, correct.
Qed.

Lemma question_params_needs (m : dict json) (row : list json) :
  question_params (JObj m) = Ok row ->
  has_key "question" (JObj m) = true
  /\ has_key "correct" (JObj m) = true
  /\ forall opts, dict_lookup "options" m = Some (JArr opts) ->
                  (4 <= length opts)%nat.
Proof.
  unfold question_params, has_key. cbn [getitem_key get_or].
  destruct (dict_lookup "question" m) as [question |]; [| discriminate].
  destruct (dict_lookup "options" m) as [options |]; [| discriminate].
  cbn [and_then].
  destruct (getitem_index options 0) eqn:E0; [| discriminate].
  destruct (getitem_index options 1) eqn:E1; [| discriminate].
  destruct (getitem_index options 2) eqn:E2; [| discriminate].
  destruct (getitem_index options 3) eqn:E3; [| discriminate].
  cbn [and_then].
  destruct (dict_lookup "correct" m) as [correct |]; [| discriminate].
  intros _. repeat split.
  intros opts [= ->]. unfold getitem_index in E3.
  destruct (nth_error opts 3) eqn:En; [| discriminate].
  assert (3 < length opts)%nat; [| lia].
  apply nth_error_Some. now rewrite En.
Qed.

(** X15. The values [start_quiz] reads from the generated questions.
    When every item has a question, exactly 4 options and a correct label
    pointing at one of them, a row of seven values is computed for each
    item, in order, with the empty text for a missing explanation.
    Conversely, once the rows are computed every object among the items has
    a question and a correct entry, and a list of options has at least 4
    elements: an object with fewer options makes the handler raise.  Both
    fallbacks of [generate_quiz_questions] give one row. *)
Theorem start_quiz_reads_questions (items : list json) :
  (forallb storable items = true ->
   exists rows,
     questions_params items = Ok rows
     /\ length rows = length items
     /\ Forall (fun row => length row = 7%nat) rows)
  /\ (forall rows m,
        questions_params items = Ok rows ->
        In (JObj m) items ->
        has_key "question" (JObj m) = true
        /\ has_key "correct" (JObj m) = true
        /\ forall opts, dict_lookup "options" m = Some (JArr opts) ->
                        (4 <= length opts)%nat)
  /\ (forall topic,
        questions_params
          match quiz_unavailable topic with JArr l => l | _ => [] end
        = Ok [[JStr ("Sample question about " ++ topic ++ "?");
               JStr "Option A"; JStr "Option B"; JStr "Option C"; JStr "Option D";
               JStr "A"; JStr EmptyString]])
  /\ (forall topic,
        questions_params
          match quiz_fallback topic with JArr l => l | _ => [] end
        = Ok [[JStr ("What is an important concept to understand about "
                       ++ topic ++ "?");
               JStr "It requires foundational knowledge";
               JStr "It can be learned quickly";
               JStr "It has no practical applications";
               JStr "It is only theoretical";
               JStr "A";
               JStr "Understanding foundational concepts is crucial for mastering any topic."]]).
Proof.
  split; [| split; [| split; reflexivity]].
  - induction items as [| q rest IH]; intros H.
    + exists []. repeat split. constructor.
    + cbn in H. apply andb_true_iff in H. destruct H as [Hq Hrest].
      destruct (IH Hrest) as (rows & Hrows & Hlen & Hall).
      destruct (question_params_storable q Hq)
        as (question & a & b & c & d & correct & Hrow).
      eexists. cbn [questions_params]. rewrite Hrow, Hrows. cbn [and_then].
      repeat split.
      * cbn. now rewrite Hlen.
      * constructor; [reflexivity | exact Hall].
  - intros rows m Hrows Hin.
    apply questions_params_each in Hrows.
    revert Hin. induction Hrows as [| item row items' rows' Hrow _ IH];
      intros Hin; [contradiction |].
    destruct Hin as [-> | Hin]; [| now apply IH].
    exact (question_params_needs m row Hrow).
Qed.

Lemma start_quiz_reads_questions_witness :
  (exists rows,
      questions_params
        [JObj [("question", JStr "Q2?");
               ("options", JArr [JStr "A"; JStr "B"; JStr "C"; JStr "D"]);
               ("correct", JStr "C")]] = Ok rows
      /\ length rows = 1%nat
      /\ Forall (fun row => length row = 7%nat) rows)
  /\ questions_params
       match mixed_quiz_items with JArr l => l | _ => [] end
     = Raise (mk_exn OtherException "list index out of range").
Proof.
  destruct (start_quiz_reads_questions
              [JObj [("question", JStr "Q2?");
                     ("options", JArr [JStr "A"; JStr "B"; JStr "C"; JStr "D"]);
                     ("correct", JStr "C")]]) as (H & _).
  split; [exact (H eq_refl) | reflexivity].
Defined.

(** ** Who gets in: login and the two decorators *)

Lemma str_neq (a b : string) : String.eqb a b = false -> a <> b.
Proof. apply String.eqb_neq. Qed.

Lemma pending_flashes_set (k : string) (v : json) (w : web) :
  String.eqb "_flashes" k = false ->
  pending_flashes (session_set k v w) = pending_flashes w.
Proof.
  intros H. unfold pending_flashes, session_set.
  now rewrite dict_lookup_set_other by now apply str_neq.
Qed.



Section Access.
Variable py_strip : string -> string.
Variable py_title : string -> string.
Variable now : string.


End Access.


(** ** The body of the dashboard *)

(** X18. The dashboard behind [login_required].  A visitor without a
    session is redirected to the login page and no request goes out.  For a
    logged-in visitor the page is always rendered and the session is left
    alone.  When the probe fails, the page gets the status [False] and the
    empty model list, and only the probe was sent.  When it succeeds, the
    page gets the status [True] and exactly the value [list_models] returned
    on its own request, sent right after the probe.  A generation is never
    requested. *)
Theorem dashboard_probes_then_lists
    (json_loads : string -> result json)
    (server : trace -> request -> http_outcome) (w : web) (tr : trace) :
  (in_session "user_id" w = false ->
   login_required (dashboard json_loads server) w tr
   = (Ok (Redirect "login", w), tr))
  /\ (in_session "user_id" w = true ->
      exists status models,
        run (OllamaClient.is_available server OLLAMA_BASE_URL) tr = Ok status
        /\ (if status : bool
            then run (OllamaClient.list_models json_loads server OLLAMA_BASE_URL)
                   (tr ++ [probe_request])%list = Ok models
            else models = JArr [])
        /\ login_required (dashboard json_loads server) w tr
           = (Ok (Render "dashboard.html"
                    [("ollama_status", JBool status);
                     ("available_models", models)], w),
              (tr ++ probe_request
                  :: (if status
                      then [mk_request GET (OLLAMA_BASE_URL ++ "/api/tags")
                              None None]
                      else []))%list)
        /\ generation_calls
             (tr ++ probe_request
                 :: (if status
                     then [mk_request GET (OLLAMA_BASE_URL ++ "/api/tags")
                             None None]
                     else []))%list
           = generation_calls tr).
Proof.
  split; intros Hin.
  - unfold login_required. now rewrite Hin.
  - destruct (is_available_returns server tr) as [status Hprobe].
    pose proof (list_models_or_empty_run json_loads server OLLAMA_BASE_URL
                  (tr ++ [probe_request])%list) as Hlist.
    destruct status.
    + eexists true, _. split; [unfold run; now rewrite Hprobe |].
      split; [unfold run; rewrite Hlist; reflexivity |].
      split.
      * unfold login_required. rewrite Hin. cbn [negb].
        unfold dashboard, bind. rewrite Hprobe, Hlist. unfold ret.
        now rewrite <- app_assoc.
      * unfold generation_calls. rewrite filter_app. cbn.
        now rewrite app_nil_r.
    + exists false, (JArr []). split; [unfold run; now rewrite Hprobe |].
      split; [reflexivity |].
      split.
      * unfold login_required. rewrite Hin. cbn [negb].
        unfold dashboard, bind. now rewrite Hprobe.
      * apply generation_calls_probe.
Qed.

(** ** Grading in submit_quiz *)

Lemma grade_loop (questions : list stored_question) (answers : dict string)
    (acc : grading) :
  grade questions answers acc
  = mk_grading
      (correct_count acc
       + length (filter g_is_correct (map (graded_of answers) questions)))
      (results acc ++ map (graded_of answers) questions)
      (updates acc
       ++ map (fun q => (answer_for answers (sq_id q), sq_id q)) questions).
Proof.
  revert acc. induction questions as [| q rest IH]; intros acc; cbn [grade].
  - cbn. rewrite Nat.add_0_r, !app_nil_r. now destruct acc.
  - rewrite IH. cbn [correct_count results updates map filter].
    change (g_is_correct (graded_of answers q))
      with (String.eqb (answer_for answers (sq_id q)) (sq_correct_answer q)).
    f_equal.
    + destruct (String.eqb (answer_for answers (sq_id q)) (sq_correct_answer q));
        cbn [length]; lia.
    + now rewrite <- app_assoc.
    + now rewrite <- app_assoc.
Qed.

(** X19. The grading loop of [submit_quiz] produces one result and one
    update per stored question, in order.  A question counts as correct
    exactly when the form's answer for its id equals the stored correct
    answer, an unanswered question being graded with the empty text;
    [correct_count] is the number of correct results and never exceeds the
    number of questions.  With no question at all the score is 0 and
    nothing is divided. *)
Theorem submit_quiz_grades_each_question
    (questions : list stored_question) (answers : dict string) :
  results (grade questions answers (mk_grading 0 [] []))
  = map (fun q =>
           mk_graded (sq_id q)
             (dict_get ("question_" ++ str_of_Z (sq_id q)) EmptyString answers)
             (sq_correct_answer q)
             (String.eqb
                (dict_get ("question_" ++ str_of_Z (sq_id q)) EmptyString answers)
                (sq_correct_answer q))
             (sq_explanation q)) questions
  /\ map snd (updates (grade questions answers (mk_grading 0 [] [])))
     = map sq_id questions
  /\ correct_count (grade questions answers (mk_grading 0 [] []))
     = length (filter g_is_correct
                 (results (grade questions answers (mk_grading 0 [] []))))
  /\ (correct_count (grade questions answers (mk_grading 0 [] []))
      <= length questions)%nat
  /\ quiz_score (correct_count (grade questions answers (mk_grading 0 [] [])))
       (length questions)
     = match questions with
       | [] => ScoreZero
       | _ :: _ =>
           ScorePercent
             (correct_count (grade questions answers (mk_grading 0 [] [])))
             (length questions)
       end.
Proof.
  split; [| split; [| split; [| split]]].
  - rewrite grade_loop. reflexivity.
  - rewrite grade_loop. cbn [updates app]. now rewrite map_map.
  - rewrite grade_loop. reflexivity.
  - rewrite grade_loop. cbn [correct_count Nat.add].
    eapply Nat.le_trans; [apply filter_length_le |].
    now rewrite length_map.
  - now destruct questions.
Qed.

(** ** Concrete runs of the context and of the dashboard *)

Lemma send_message_context_newest_five_witness :
  (length (send_message_context seven_messages "s" "u") <= 5)%nat.
Proof.
  destruct (send_message_context_newest_five seven_messages "s" "u")
    as (chosen & left_out & Hctx & _ & Hlen & _).
  rewrite Hctx, length_map, Hlen. apply Nat.le_min_l.
Defined.

Lemma dashboard_probes_then_lists_witness :
  login_required (dashboard JsonRef.loads (scripted [])) [] []
  = (Ok (Redirect "login", []), [])
  /\ login_required
       (dashboard JsonRef.loads
          (scripted [answer 200 tags_body;
                     answer 200 ("{" ++ quote "models" ++ ": [{"
                                   ++ quote "name" ++ ": "
                                   ++ quote "llama3.2" ++ "}]}")]))
       [("user_id", JStr "student_user_20250101120000")] []
     = (Ok (Render "dashboard.html"
              [("ollama_status", JBool true);
               ("available_models",
                JArr [JObj [("name", JStr "llama3.2")]])],
            [("user_id", JStr "student_user_20250101120000")]),
        [probe_request;
         mk_request GET (OLLAMA_BASE_URL ++ "/api/tags") None None]).
Proof.
  destruct (dashboard_probes_then_lists JsonRef.loads (scripted []) [] [])
    as (Hout & _).
  destruct (dashboard_probes_then_lists JsonRef.loads
              (scripted [answer 200 tags_body;
                         answer 200 ("{" ++ quote "models" ++ ": [{"
                                       ++ quote "name" ++ ": "
                                       ++ quote "llama3.2" ++ "}]}")])
              [("user_id", JStr "student_user_20250101120000")] [])
    as (_ & Hin).
  split; [exact (Hout eq_refl) |].
  destruct (Hin eq_refl) as (status & models & Hstatus & Hmodels & Hrun & _).
  vm_compute in Hstatus. injection Hstatus as <-.
  vm_compute in Hmodels. injection Hmodels as <-.
  exact Hrun.
Defined.
